(** * dify-sandbox-py: the execution engine and its admission control

    A shallow embedding of [app/executor.py] (the two language runners and
    [CodeExecutor.execute]) and of [app/main.py] (the two middlewares and the
    [/v1/sandbox/run] handler), followed by the properties of the
    specification stated over that embedding.

    What the Python code obtains from outside itself (the embedded
    interpreter behind [exec], the operating system behind [tempfile],
    [subprocess] and [os.unlink], the process pool and the clock behind
    [asyncio.wait_for]) is a parameter of the definitions: a function or a
    record that says what that service answered.  Everything the source
    does with the answers is written out. *)

From Stdlib Require Import ZArith Lia.
From stdpp Require Import base option list strings gmap pretty.

Local Open Scope Z_scope.

(* ===================================================================== *)
(** ** Python values shared by both source files                          *)
(* ===================================================================== *)

Module Py.

(** The line feed of the f-strings ["{str(e)}\n\nTraceback:\n{...}"]. *)
Definition nl : string := String (Ascii.ascii_of_nat 10) EmptyString.

(** Exception classes, as far as the [except] clauses of the source tell
    them apart: [except asyncio.TimeoutError], [except Exception], and
    what neither catches (classes deriving from [BaseException] only:
    [SystemExit], [KeyboardInterrupt], [GeneratorExit],
    [asyncio.CancelledError]). *)
Inductive ExcClass : Type :=
| TimeoutError
| ExceptionSubclass (name : string)
| BaseExceptionOnly (name : string).

(** A raised exception [e]: its class, [str(e)], and the text that
    [traceback.format_exc()] returns while [e] is being handled. *)
Record PyExc : Type := mkExc {
  exc_class : ExcClass;
  exc_str : string;
  exc_traceback : string
}.

(** [isinstance(e, Exception)]. *)
Definition is_Exception (e : PyExc) : bool :=
  match exc_class e with
  | TimeoutError | ExceptionSubclass _ => true
  | BaseExceptionOnly _ => false
  end.

(** [isinstance(e, asyncio.TimeoutError)]. *)
Definition is_TimeoutError (e : PyExc) : bool :=
  match exc_class e with
  | TimeoutError => true
  | _ => false
  end.

(** How a call ends: it returns a value, it raises, or it never comes
    back (a source that loops, a child process that never exits, a
    semaphore nobody releases). *)
Inductive Outcome (A : Type) : Type :=
| Return (a : A)
| Raise (e : PyExc)
| Hang.
Arguments Return {A} a.
Arguments Raise {A} e.
Arguments Hang {A}.

(** [s or None] on a string. *)
Definition or_None (s : string) : option string :=
  match s with
  | EmptyString => None
  | _ => Some s
  end.

(** [v or ""] on an optional string. *)
Definition or_empty (v : option string) : string :=
  match v with
  | Some s => s
  | None => EmptyString
  end.

(** The f-string [f"{str(e)}\n\nTraceback:\n{error_traceback}"] used by
    every [except Exception as e] handler of [executor.py]. *)
Definition format_error (e : PyExc) : string :=
  exc_str e +:+ nl +:+ nl +:+ "Traceback:" +:+ nl +:+ exc_traceback e.

End Py.
Export Py.

(* ===================================================================== *)
(** ** app/executor.py                                                    *)
(* ===================================================================== *)

Module Executor.

(** The dictionary [{"success": ..., "output": ..., "error": ...}]. *)
Record ExecResult : Type := mkResult {
  success : bool;
  output : string;
  error : option string
}.

(** *** The embedded runner *)

(** What [exec(code, global_namespace)] did under [redirect_stdout] and
    [redirect_stderr], as the runner sees it afterwards.  The source runs
    in the runner's own interpreter with the two buffers as its
    [sys.stdout] and [sys.stderr], so it decides
    - what [stdout_buffer.getvalue()] and [stderr_buffer.getvalue()] give
      once [exec] is over: the text written, or the [ValueError] of a
      buffer that the source closed;
    - how [exec] ended;
    - how [str(e)] ends for the exception [e] that [exec] raised: it
      returns [exc_str e], or the [__str__] of that exception raises or
      never returns. *)
Record ExecRun : Type := mkRun {
  run_stdout : Outcome string;
  run_stderr : Outcome string;
  run_end : Outcome unit;
  run_str : Outcome unit
}.

(** The embedded interpreter: the behaviour of [exec] on each source. *)
Definition Interp : Type := string -> ExecRun.

(** Lines 51-66, the handler [except Exception as e]: it reads
    [stdout_buffer] (line 52) and calls [str(e)] (lines 58 and 65), neither
    under a [try] of its own, and returns the failure dictionary.  An
    exception that is not an [Exception] passes it by.  [str_e] says how
    [str(e)] ends. *)
Definition except_Exception (r : ExecRun) (e : PyExc) (str_e : Outcome unit)
  : Outcome ExecResult :=
  if is_Exception e then
    match run_stdout r with
    | Return stdout_output =>
        match str_e with
        | Return _ =>
            Return {| success := false;
                      output := stdout_output;
                      error := Some (format_error e) |}
        | Raise e' => Raise e'
        | Hang => Hang
        end
    | Raise e' => Raise e'
    | Hang => Hang
    end
  else Raise e.

(** [_run_python_code_in_process].  The [try] body runs [exec], reads the
    two buffers (lines 35-36) and returns the first dictionary; whatever
    it raises, from [exec] or from a [getvalue()], goes to the handler.
    The error of a [getvalue()] is the library's own, and its [str]
    returns. *)
Definition _run_python_code_in_process (exec : Interp) (code : string)
  : Outcome ExecResult :=
  let r := exec code in
  match run_end r with
  | Return _ =>
      match run_stdout r with
      | Return stdout_output =>
          match run_stderr r with
          | Return stderr_output =>
              Return {| success := true;
                        output := stdout_output;
                        error := or_None stderr_output |}
          | Raise e => except_Exception r e (Return tt)
          | Hang => Hang
          end
      | Raise e => except_Exception r e (Return tt)
      | Hang => Hang
      end
  | Raise e => except_Exception r e (run_str r)
  | Hang => Hang
  end.

(** *** The external runner *)

(** The files the runner has created and not yet removed, with their
    content: a record of what the runner itself did with [tempfile] and
    [os.unlink].  What the child process does to the disk while it runs
    is not in it. *)
Abbreviation FS := (gmap string string).

(** A child process started by [subprocess.Popen]: what
    [process.communicate()] yields (the captured [(stdout, stderr)], an
    exception such as a decoding error under [text=True], or nothing
    when the child never exits) and [process.returncode] afterwards. *)
Record Process : Type := mkProcess {
  proc_communicate : Outcome (string * string);
  proc_returncode : Z
}.

(** The operating system as the runner meets it.  Each field answers one
    call of the source. *)
Record Host : Type := mkHost {
  (** [tempfile.NamedTemporaryFile(mode='w', suffix='.js', delete=False)]:
      the name of the file it created, or the error it raised. *)
  tmp_create : FS -> Outcome string;
  (** [temp_file.write(code)] and the close at the end of [with]:
      the error raised, if any (a full disk). *)
  tmp_write_fault : FS -> string -> string -> option PyExc;
  (** [subprocess.Popen(args, ...)]: the child, or the error raised when
      it cannot be started ([FileNotFoundError] for a missing binary,
      [OSError] when the host is out of processes or memory). *)
  spawn : FS -> list string -> Outcome Process;
  (** [os.unlink(path)]: the error raised, if the system refuses. *)
  unlink_fault : FS -> string -> option PyExc
}.

(** Code of the runner: a state transformer on the files that returns,
    raises or hangs. *)
Definition OS (A : Type) : Type := FS -> FS * Outcome A.

#[global] Instance OS_ret : MRet OS := fun A a fs => (fs, Return a).

#[global] Instance OS_bind : MBind OS := fun A B k m fs =>
  match m fs with
  | (fs', Return a) => k a fs'
  | (fs', Raise e) => (fs', Raise e)
  | (fs', Hang) => (fs', Hang)
  end.

(** [try: body / except Exception as e: handler e]: only an [Exception]
    reaches the handler. *)
Definition try_except {A} (body : OS A) (handler : PyExc -> OS A) : OS A :=
  fun fs =>
    match body fs with
    | (fs', Raise e) => if is_Exception e then handler e fs' else (fs', Raise e)
    | res => res
    end.

Section Node.
Variable host : Host.

Definition NamedTemporaryFile : OS string := fun fs =>
  match tmp_create host fs with
  | Return name => (<[name := ""]> fs, Return name)
  | Raise e => (fs, Raise e)
  | Hang => (fs, Hang)
  end.

Definition write (name data : string) : OS unit := fun fs =>
  match tmp_write_fault host fs name data with
  | None => (<[name := data]> fs, Return tt)
  | Some e => (fs, Raise e)
  end.

(** [subprocess.Popen(args, ...)]: the runner's own files are as before;
    the child and all it does belong to the [Process] the host answers
    with. *)
Definition Popen (args : list string) : OS Process := fun fs =>
  (fs, spawn host fs args).

Definition communicate (process : Process) : OS (string * string) := fun fs =>
  (fs, proc_communicate process).

Definition unlink (path : string) : OS unit := fun fs =>
  match unlink_fault host fs path with
  | None => (delete path fs, Return tt)
  | Some e => (fs, Raise e)
  end.

(** [_run_nodejs_code_in_process]. *)
Definition _run_nodejs_code_in_process (code : string) : OS ExecResult :=
  try_except
    (temp_file ← NamedTemporaryFile;
     _ ← write temp_file code;
     let temp_file_path := temp_file in
     process ← Popen ["node"; temp_file_path];
     '(stdout, stderr) ← communicate process;
     _ ← unlink temp_file_path;
     if proc_returncode process =? 0 then
       mret {| success := true; output := stdout; error := None |}
     else
       mret {| success := false; output := stdout; error := Some stderr |})
    (fun e =>
       mret {| success := false; output := ""; error := Some (format_error e) |}).

End Node.

(** The run got as far as the test of [process.returncode]: the temporary
    file [name] was created and written, [node] was started on it and
    exited with [stdout] and [stderr] captured, and the file was removed. *)
Definition process_exited (host : Host) (code : string) (fs : FS)
  (name : string) (process : Process) (stdout stderr : string) : Prop :=
  tmp_create host fs = Return name /\
  tmp_write_fault host (<[name := ""]> fs) name code = None /\
  spawn host (<[name := code]> (<[name := ""]> fs)) ["node"; name] = Return process /\
  proc_communicate process = Return (stdout, stderr) /\
  unlink_fault host (<[name := code]> (<[name := ""]> fs)) name = None.

(** *** The coordinator *)

(** [executor_func]: the runner chosen by [execute]. *)
Inductive Runner : Type := PythonRunner | NodeRunner.

(** A call handed to the process pool. *)
Inductive PoolCall : Type := Submitted (f : Runner) (code : string).

(** The fields of [CodeExecutor] that [execute] reads.  [timeout] is in
    seconds. *)
Record CodeExecutor : Type := mkExecutor {
  timeout : Z;
  nodejs_available : bool
}.

(** What the process pool does with one submission:
    [loop.run_in_executor] itself may raise (a pool that is shut down or
    broken), the worker may die under the job ([BrokenProcessPool] becomes
    the future's exception), and the job takes [elapsed_ms] milliseconds
    from dispatch to completion when it completes. *)
Record Pool : Type := mkPool {
  submit_fault : option PyExc;
  worker_fault : option PyExc;
  elapsed_ms : nat
}.

(** The future returned by [run_in_executor]: how the job ends in the
    worker and when. *)
Record Future : Type := mkFuture {
  fut_result : Outcome ExecResult;
  fut_elapsed_ms : nat
}.

Definition run_in_executor (pool : Pool)
  (executor_func : string -> Outcome ExecResult) (code : string)
  : Outcome Future :=
  match submit_fault pool with
  | Some e => Raise e
  | None =>
      Return {| fut_result :=
                  match worker_fault pool with
                  | Some e => Raise e
                  | None => executor_func code
                  end;
                fut_elapsed_ms := elapsed_ms pool |}
  end.

(** The future is done strictly before [timeout] seconds have passed. *)
Definition done_within (fut : Future) (timeout : Z) : bool :=
  match fut_result fut with
  | Hang => false
  | _ => Z.of_nat (fut_elapsed_ms fut) <? 1000 * timeout
  end.

(** The exception [asyncio.wait_for] raises at the deadline. *)
Definition asyncio_TimeoutError : PyExc :=
  {| exc_class := TimeoutError; exc_str := ""; exc_traceback := "" |}.

(** [await asyncio.wait_for(future, timeout=timeout)]: the future's own
    result or exception when it is done in time, [TimeoutError]
    otherwise; the caller stops waiting, the worker is left alone. *)
Definition wait_for (fut : Future) (timeout : Z) : Outcome ExecResult :=
  if done_within fut timeout then fut_result fut else Raise asyncio_TimeoutError.

(** The dictionary returned by [except asyncio.TimeoutError]. *)
Definition timeout_result (self : CodeExecutor) : ExecResult :=
  {| success := false;
     output := "";
     error := Some ("代码执行超时 (>" +:+ pretty (timeout self) +:+ "秒)") |}.

Definition nodejs_unavailable_result : ExecResult :=
  {| success := false; output := ""; error := Some "Node.js未安装或不可用" |}.

Definition unsupported_language_result (language : string) : ExecResult :=
  {| success := false; output := ""; error := Some ("不支持的语言: " +:+ language) |}.

Section Execute.
Variable exec : Interp.
Variable host : Host.
Variable pool : Pool.
(** The files at the time the job runs. *)
Variable fs : FS.

(** The function a worker process runs for each [executor_func]. *)
Definition runner (f : Runner) (code : string) : Outcome ExecResult :=
  match f with
  | PythonRunner => _run_python_code_in_process exec code
  | NodeRunner => snd (_run_nodejs_code_in_process host code fs)
  end.

(** Lines 175-183: submit to the pool, await under the deadline, return
    the result. *)
Definition submit_and_wait (self : CodeExecutor) (f : Runner) (code : string)
  : list PoolCall * Outcome ExecResult :=
  ([Submitted f code],
   match run_in_executor pool (runner f) code with
   | Return future => wait_for future (timeout self)
   | Raise e => Raise e
   | Hang => Hang
   end).

(** The [try] body of [execute]. *)
Definition execute_body (self : CodeExecutor) (code language : string)
  : list PoolCall * Outcome ExecResult :=
  if String.eqb language "python3" then
    submit_and_wait self PythonRunner code
  else if String.eqb language "nodejs" then
    if negb (nodejs_available self) then ([], Return nodejs_unavailable_result)
    else submit_and_wait self NodeRunner code
  else ([], Return (unsupported_language_result language)).

(** [CodeExecutor.execute]: the body under its two [except] clauses.  The
    first component lists the calls made to the pool. *)
Definition execute (self : CodeExecutor) (code language : string)
  : list PoolCall * Outcome ExecResult :=
  let '(calls, res) := execute_body self code language in
  (calls,
   match res with
   | Raise e =>
       if is_TimeoutError e then Return (timeout_result self)
       else if is_Exception e then
         Return {| success := false; output := ""; error := Some (format_error e) |}
       else Raise e
   | _ => res
   end).

End Execute.

End Executor.
Export Executor.

(* ===================================================================== *)
(** ** app/main.py                                                        *)
(* ===================================================================== *)

Module Main.

(** [class CodeRequest(BaseModel)]. *)
Record CodeRequest : Type := mkCodeRequest {
  language : string;
  code : string;
  preload : option string;
  enable_network : option bool
}.

(** What the middlewares and the route read of a request:
    [request.url.path], [request.headers.get("X-Api-Key")] and the
    validated body. *)
Record Request : Type := mkRequest {
  path : string;
  x_api_key : option string;
  body : CodeRequest
}.

(** The value of the ["data"] key: [{"error": ..., "stdout": ...}]. *)
Record Data : Type := mkData {
  data_error : string;
  data_stdout : string
}.

(** The dictionary [{"code": ..., "message": ..., "data": ...}]. *)
Record Payload : Type := mkPayload {
  rsp_code : Z;
  rsp_message : string;
  rsp_data : option Data
}.

(** What a handler or a middleware returns: a dictionary as it is, a
    [JSONResponse], the text of [/health], or the router's answer to a
    path that has no route. *)
Inductive Response : Type :=
| Dict (p : Payload)
| JSONResponse (status_code : Z) (content : Payload)
| Plain (text : string)
| NotFound.

(** The inner application as a middleware sees it through
    [await call_next(request)]: the calls it made to the process pool and
    how it ended.  It holds no reference to the middleware object. *)
Definition Handler : Type := list PoolCall * Outcome Response.

Definition unsupported_language : Payload :=
  {| rsp_code := -400; rsp_message := "unsupported language"; rsp_data := None |}.

Definition unauthorized : Payload :=
  {| rsp_code := -401; rsp_message := "Unauthorized"; rsp_data := None |}.

Definition too_many_requests : Payload :=
  {| rsp_code := -503; rsp_message := "Too many requests"; rsp_data := None |}.

(** [request.language not in ["python3", "nodejs"]]. *)
Definition language_supported (language : string) : bool :=
  String.eqb language "python3" || String.eqb language "nodejs".

(** [execute_code], the handler of [POST /v1/sandbox/run].  [execute] is
    [executor.execute] with its services applied. *)
Definition execute_code
  (execute : string -> string -> list PoolCall * Outcome ExecResult)
  (request : CodeRequest) : Handler :=
  if negb (language_supported (language request)) then
    ([], Return (Dict unsupported_language))
  else
    let '(calls, res) := execute (code request) (language request) in
    (calls,
     match res with
     | Return result =>
         Return (Dict {| rsp_code := 0;
                         rsp_message := "success";
                         rsp_data := Some {| data_error := or_empty (error result);
                                             data_stdout := or_empty (Some (output result)) |} |})
     | Raise e => Raise e
     | Hang => Hang
     end).

(** The routes of [app]. *)
Definition route
  (execute : string -> string -> list PoolCall * Outcome ExecResult)
  (request : Request) : Handler :=
  if String.eqb (path request) "/v1/sandbox/run" then execute_code execute (body request)
  else if String.eqb (path request) "/health" then ([], Return (Plain "ok"))
  else ([], Return NotFound).

Module AuthMiddleware.

(** [not api_key or api_key != API_KEY]. *)
Definition rejected (API_KEY : string) (api_key : option string) : bool :=
  match api_key with
  | None => true
  | Some k => String.eqb k "" || negb (String.eqb k API_KEY)
  end.

Definition dispatch (API_KEY : string) (request : Request) (call_next : Handler)
  : Handler :=
  if String.prefix "/v1/sandbox" (path request) then
    let api_key := x_api_key request in
    if rejected API_KEY api_key then ([], Return (JSONResponse 401 unauthorized))
    else call_next
  else call_next.

End AuthMiddleware.

(** What the concurrency middleware does to its own fields, in order.
    [rid] names the request on whose behalf it is done. *)
Inductive Event : Type :=
| Incremented (rid : nat)
| Decremented (rid : nat)
| Acquired (rid : nat)
| Released (rid : nat)
| PoolCalled (rid : nat) (c : PoolCall).

(** The fields of the [ConcurrencyMiddleware] object ([semaphore] is the
    number of free permits of [asyncio.Semaphore(MAX_WORKERS)]), and the
    record of what was done to them and to the pool. *)
Record Server : Type := mkServer {
  semaphore : nat;
  current_requests : Z;
  trace : list Event
}.

(** Code running in the server's event loop. *)
Definition Srv (A : Type) : Type := Server -> Server * Outcome A.

#[global] Instance Srv_ret : MRet Srv := fun A a st => (st, Return a).

#[global] Instance Srv_bind : MBind Srv := fun A B k m st =>
  match m st with
  | (st', Return a) => k a st'
  | (st', Raise e) => (st', Raise e)
  | (st', Hang) => (st', Hang)
  end.

(** [try: body / finally: final]: [final] runs when [body] returns and
    when it raises, whatever the class of the exception; it does not run
    while [body] has not ended. *)
Definition try_finally {A} (body : Srv A) (final : Server -> Server) : Srv A :=
  fun st =>
    match body st with
    | (st', Return a) => (final st', Return a)
    | (st', Raise e) => (final st', Raise e)
    | (st', Hang) => (st', Hang)
    end.

Definition emit (ev : Event) (st : Server) : Server :=
  {| semaphore := semaphore st;
     current_requests := current_requests st;
     trace := trace st ++ [ev] |}.

(** [self.current_requests += 1]. *)
Definition increment (rid : nat) (st : Server) : Server :=
  emit (Incremented rid)
    {| semaphore := semaphore st;
       current_requests := current_requests st + 1;
       trace := trace st |}.

(** [self.current_requests -= 1]. *)
Definition decrement (rid : nat) (st : Server) : Server :=
  emit (Decremented rid)
    {| semaphore := semaphore st;
       current_requests := current_requests st - 1;
       trace := trace st |}.

(** [Semaphore.acquire]: takes a permit when one is free; [None] when the
    caller has to wait for a release. *)
Definition acquire (rid : nat) (st : Server) : option Server :=
  match semaphore st with
  | O => None
  | S n =>
      Some (emit (Acquired rid)
              {| semaphore := n;
                 current_requests := current_requests st;
                 trace := trace st |})
  end.

(** [Semaphore.release]. *)
Definition release (rid : nat) (st : Server) : Server :=
  emit (Released rid)
    {| semaphore := S (semaphore st);
       current_requests := current_requests st;
       trace := trace st |}.

(** [await call_next(request)]: the inner application runs; its pool
    calls are recorded. *)
Definition call (rid : nat) (call_next : Handler) : Srv Response :=
  fun st =>
    ({| semaphore := semaphore st;
        current_requests := current_requests st;
        trace := trace st ++ map (PoolCalled rid) (fst call_next) |},
     snd call_next).

(** [async with self.semaphore: body], for a request that runs alone: with
    no free permit nobody will release one, and the wait never ends. *)
Definition async_with_semaphore {A} (rid : nat) (body : Srv A) : Srv A :=
  fun st =>
    match acquire rid st with
    | None => (st, Hang)
    | Some st1 => try_finally body (release rid) st1
    end.

Module ConcurrencyMiddleware.

(** [request.url.path.startswith("/v1/sandbox/run")]. *)
Definition is_run (request : Request) : bool :=
  String.prefix "/v1/sandbox/run" (path request).

(** [ConcurrencyMiddleware.__init__]. *)
Definition init (MAX_WORKERS : nat) : Server :=
  {| semaphore := MAX_WORKERS; current_requests := 0; trace := [] |}.

(** [ConcurrencyMiddleware.dispatch], for the request [rid]. *)
Definition dispatch (MAX_REQUESTS : Z) (rid : nat) (request : Request)
  (call_next : Handler) : Srv Response :=
  if is_run request then
    fun st =>
      if current_requests st >=? MAX_REQUESTS then
        (st, Return (Dict too_many_requests))
      else
        try_finally
          (async_with_semaphore rid (call rid call_next))
          (decrement rid)
          (increment rid st)
  else call rid call_next.

End ConcurrencyMiddleware.

(** The application: [ConcurrencyMiddleware], added last, is outermost;
    [AuthMiddleware] is next; then the router. *)
Definition app (API_KEY : string) (MAX_REQUESTS : Z)
  (execute : string -> string -> list PoolCall * Outcome ExecResult)
  (rid : nat) (request : Request) : Srv Response :=
  ConcurrencyMiddleware.dispatch MAX_REQUESTS rid request
    (AuthMiddleware.dispatch API_KEY request (route execute request)).

End Main.
Export Main.

(* ===================================================================== *)
(** ** Several requests in the event loop                                 *)
(* ===================================================================== *)

(** The event loop runs one coroutine at a time and switches between them
    at an [await] only.  [ConcurrencyMiddleware.dispatch] has two: the wait
    for the semaphore and [await call_next(request)].  Between them its
    code runs undisturbed, so a request moves through [dispatch] in the
    steps below, and the steps of different requests interleave freely.
    Any waiting request may take a free permit, and it may do so any
    time after it was counted: the loop's own order of waking is one of
    these schedules. *)
Module Loop.

(** Where a request is inside [ConcurrencyMiddleware.dispatch]. *)
Inductive Phase : Type :=
| Arrived
  (** [dispatch] has not started. *)
| Waiting
  (** counted in [current_requests], inside [try], awaiting a permit. *)
| Handling
  (** holds a permit, awaiting [call_next]. *)
| Finished (o : Outcome Response).
  (** [dispatch] has returned or raised. *)

(** A request that holds an AdmissionTicket: counted and not finished. *)
Definition in_flight (ph : Phase) : bool :=
  match ph with
  | Waiting | Handling => true
  | _ => false
  end.

(** A request that holds a permit of the semaphore. *)
Definition running (ph : Phase) : bool :=
  match ph with
  | Handling => true
  | _ => false
  end.

(** How many of the requests satisfy [f]. *)
Definition count_if (f : Phase -> bool) (phs : list Phase) : nat :=
  length (List.filter f phs).

Definition in_flight_count (phs : list Phase) : nat := count_if in_flight phs.

Definition running_count (phs : list Phase) : nat := count_if running phs.

(** The middleware object and the phase of each request; request [i] is
    the [i]-th of the list. *)
Definition Sys : Type := Server * list Phase.

(** The counter is the number of requests that hold a ticket. *)
Definition counter_exact (s : Sys) : Prop :=
  current_requests (fst s) = Z.of_nat (in_flight_count (snd s)).

(** The permits are shared out between the semaphore and the requests
    that are being handled. *)
Definition permits_exact (MAX_WORKERS : nat) (s : Sys) : Prop :=
  (semaphore (fst s) + running_count (snd s) = MAX_WORKERS)%nat.

Definition start (MAX_WORKERS : nat) (requests : list Request) : Sys :=
  (ConcurrencyMiddleware.init MAX_WORKERS, replicate (length requests) Arrived).

Section Steps.
Variable MAX_REQUESTS : Z.
Variable requests : list Request.

Inductive step : Sys -> Sys -> Prop :=
| step_reject i request st phs :
    (** lines 76-82: at the ceiling, return the dictionary at once *)
    requests !! i = Some request ->
    phs !! i = Some Arrived ->
    ConcurrencyMiddleware.is_run request = true ->
    (current_requests st >=? MAX_REQUESTS) = true ->
    step (st, phs) (st, <[i := Finished (Return (Dict too_many_requests))]> phs)
| step_admit i request st phs :
    (** lines 84-86: count the request, enter [try], ask for a permit *)
    requests !! i = Some request ->
    phs !! i = Some Arrived ->
    ConcurrencyMiddleware.is_run request = true ->
    (current_requests st >=? MAX_REQUESTS) = false ->
    step (st, phs) (increment i st, <[i := Waiting]> phs)
| step_acquire i st st' phs :
    (** line 86: a permit is free *)
    phs !! i = Some Waiting ->
    acquire i st = Some st' ->
    step (st, phs) (st', <[i := Handling]> phs)
| step_cancel i e st phs :
    (** lines 86, 89-90: the wait for a permit is cancelled; [finally] *)
    phs !! i = Some Waiting ->
    step (st, phs) (decrement i st, <[i := Finished (Raise e)]> phs)
| step_finish i (call_next : Handler) st phs :
    (** lines 87-90: [call_next] ends, returning or raising; the permit is
        released, [finally] runs *)
    phs !! i = Some Handling ->
    snd call_next <> Hang ->
    step (st, phs)
         (decrement i (release i (fst (call i call_next st))),
          <[i := Finished (snd call_next)]> phs)
| step_bypass i request (call_next : Handler) st phs :
    (** line 91: another path goes straight to [call_next] *)
    requests !! i = Some request ->
    phs !! i = Some Arrived ->
    ConcurrencyMiddleware.is_run request = false ->
    snd call_next <> Hang ->
    step (st, phs)
         (fst (call i call_next st), <[i := Finished (snd call_next)]> phs).

(** The states the server can be in, [MAX_WORKERS] being the size of the
    semaphore. *)
Definition reachable (MAX_WORKERS : nat) (s : Sys) : Prop :=
  rtc step (start MAX_WORKERS requests) s.

End Steps.

End Loop.

(* ===================================================================== *)
(** ** Concrete services, used to run the definitions                     *)
(* ===================================================================== *)

Module Sample.

(** The traceback text of an exception raised at line 1 of the source. *)
Definition tb_line1 (last : string) : string :=
  "Traceback (most recent call last):" +:+ nl +:+
  "  File '<string>', line 1, in <module>" +:+ nl +:+ last +:+ nl.

Definition ValueError_boom : PyExc :=
  {| exc_class := ExceptionSubclass "ValueError";
     exc_str := "boom";
     exc_traceback := tb_line1 "ValueError: boom" |}.

Definition SystemExit_1 : PyExc :=
  {| exc_class := BaseExceptionOnly "SystemExit";
     exc_str := "1";
     exc_traceback := tb_line1 "SystemExit: 1" |}.

Definition SyntaxError_ : PyExc :=
  {| exc_class := ExceptionSubclass "SyntaxError";
     exc_str := "invalid syntax (<string>, line 1)";
     exc_traceback := tb_line1 "SyntaxError: invalid syntax" |}.

(** What [getvalue()] raises on a buffer that was closed. *)
Definition ValueError_closed : PyExc :=
  {| exc_class := ExceptionSubclass "ValueError";
     exc_str := "I/O operation on closed file";
     exc_traceback :=
       "Traceback (most recent call last):" +:+ nl +:+
       "  File '/app/executor.py', in _run_python_code_in_process" +:+ nl +:+
       "ValueError: I/O operation on closed file" +:+ nl |}.

(** An exception whose [__str__] raises a [KeyError]. *)
Definition Moody : PyExc :=
  {| exc_class := ExceptionSubclass "Moody";
     exc_str := "";
     exc_traceback := tb_line1 "Moody: <exception str() failed>" |}.

Definition KeyError_mood : PyExc :=
  {| exc_class := ExceptionSubclass "KeyError";
     exc_str := "'mood'";
     exc_traceback := tb_line1 "KeyError: 'mood'" |}.

(** A source that raises an exception whose [__str__] fails. *)
Definition moody_source : string :=
  "class Moody(Exception): __str__ = lambda self: {}['mood']" +:+ nl +:+
  "raise Moody()".

(** An interpreter that knows nine programs and rejects the rest. *)
Definition exec : Interp := fun code =>
  if String.eqb code "" then
    mkRun (Return "") (Return "") (Return tt) (Return tt)
  else if String.eqb code "print('hi')" then
    mkRun (Return ("hi" +:+ nl)) (Return "") (Return tt) (Return tt)
  else if String.eqb code "import sys; sys.stderr.write('warn')" then
    mkRun (Return "") (Return "warn") (Return tt) (Return tt)
  else if String.eqb code
       "import sys; print('a'); sys.stderr.write('b'); raise ValueError('boom')" then
    mkRun (Return ("a" +:+ nl)) (Return "b") (Raise ValueError_boom) (Return tt)
  else if String.eqb code "import sys; sys.exit(1)" then
    mkRun (Return "") (Return "") (Raise SystemExit_1) (Return tt)
  else if String.eqb code "while True: pass" then
    mkRun (Return "") (Return "") Hang (Return tt)
  else if String.eqb code "import sys; sys.stderr.close()" then
    mkRun (Return "") (Raise ValueError_closed) (Return tt) (Return tt)
  else if String.eqb code "import sys; print('a'); sys.stdout.close()" then
    mkRun (Raise ValueError_closed) (Return "") (Return tt) (Return tt)
  else if String.eqb code moody_source then
    mkRun (Return "") (Return "") (Raise Moody) (Raise KeyError_mood)
  else
    mkRun (Return "") (Return "") (Raise SyntaxError_) (Return tt).

Definition FileNotFoundError_node : PyExc :=
  {| exc_class := ExceptionSubclass "FileNotFoundError";
     exc_str := "[Errno 2] No such file or directory: 'node'";
     exc_traceback :=
       "Traceback (most recent call last):" +:+ nl +:+
       "  File '/app/executor.py', line 85, in _run_nodejs_code_in_process" +:+ nl +:+
       "FileNotFoundError: [Errno 2] No such file or directory: 'node'" +:+ nl |}.

(** What [node script.js] does for four scripts; any other text is taken
    for a script that throws. *)
Definition node (script : string) : Process :=
  if String.eqb script "console.log('hi')" then
    mkProcess (Return ("hi" +:+ nl, "")) 0
  else if String.eqb script "console.error('warn')" then
    mkProcess (Return ("", "warn" +:+ nl)) 0
  else if String.eqb script "process.exit(3)" then
    mkProcess (Return ("", "")) 3
  else if String.eqb script "while (true) {}" then
    mkProcess Hang 0
  else
    mkProcess (Return ("", "Uncaught Error" +:+ nl)) 1.

(** A host where everything works: the temporary file is always
    [/tmp/tmpq1w2e3.js] and [node] runs the file it is given. *)
Definition host : Host :=
  {| tmp_create := fun _ => Return "/tmp/tmpq1w2e3.js";
     tmp_write_fault := fun _ _ _ => None;
     spawn := fun fs args =>
       match args with
       | [_; script_path] => Return (node (default "" (fs !! script_path)))
       | _ => Return (node "")
       end;
     unlink_fault := fun _ _ => None |}.

(** The same host without a [node] binary on its [PATH]. *)
Definition host_without_node : Host :=
  {| tmp_create := tmp_create host;
     tmp_write_fault := tmp_write_fault host;
     spawn := fun _ _ => Raise FileNotFoundError_node;
     unlink_fault := unlink_fault host |}.

(** A healthy pool that needs five milliseconds for a job. *)
Definition pool : Pool :=
  {| submit_fault := None; worker_fault := None; elapsed_ms := 5 |}.

(** The executor of [main.py] with its default [WORKER_TIMEOUT]. *)
Definition executor : CodeExecutor :=
  {| timeout := 10000; nodejs_available := true |}.

Definition execute : string -> string -> list PoolCall * Outcome ExecResult :=
  Executor.execute exec host pool ∅ executor.

(** A run request for [language] carrying the default API key. *)
Definition run_request (language code : string) : Request :=
  {| path := "/v1/sandbox/run";
     x_api_key := Some "dify-sandbox";
     body := {| language := language; code := code;
                preload := Some ""; enable_network := Some false |} |}.

End Sample.

(** When the languages and the probe let [execute] submit, and to which
    runner. *)
Definition dispatches (self : CodeExecutor) (language : string) (f : Runner) : Prop :=
  (language = "python3" /\ f = PythonRunner) \/
  (language = "nodejs" /\ nodejs_available self = true /\ f = NodeRunner).

(* ===================================================================== *)
(** ** Start-up: the probe for Node.js and the size of the pool            *)
(* ===================================================================== *)

Module Startup.

(** [raise e]. *)
Definition os_raise {A} (e : PyExc) : OS A := fun fs => (fs, Raise e).

(** The exception [subprocess.run(..., check=True)] raises for a non-zero
    exit status.  Its traceback is never read. *)
Definition CalledProcessError (returncode : Z) : PyExc :=
  {| exc_class := ExceptionSubclass "CalledProcessError";
     exc_str := "Command '['node', '--version']' returned non-zero exit status "
                +:+ pretty returncode +:+ ".";
     exc_traceback := "" |}.

(** [subprocess.run(args, stdout=PIPE, stderr=PIPE, check=True)]: start
    the child, wait for it with its output captured, raise
    [CalledProcessError] when it did not exit with 0. *)
Definition subprocess_run_check (host : Host) (args : list string) : OS unit :=
  process ← Popen host args;
  _ ← communicate process;
  if proc_returncode process =? 0 then mret tt
  else os_raise (CalledProcessError (proc_returncode process)).

(** [isinstance(e, (subprocess.SubprocessError, FileNotFoundError))], by
    the name of the class of [e]: the two classes and the two subclasses
    of [SubprocessError] in the [subprocess] module. *)
Definition is_probe_failure (e : PyExc) : bool :=
  match exc_class e with
  | ExceptionSubclass name =>
      String.eqb name "SubprocessError" || String.eqb name "CalledProcessError" ||
      String.eqb name "TimeoutExpired" || String.eqb name "FileNotFoundError"
  | _ => false
  end.

(** [check_nodejs_available]. *)
Definition check_nodejs_available (host : Host) (fs : FS) : Outcome bool :=
  match snd (subprocess_run_check host ["node"; "--version"] fs) with
  | Return _ => Return true
  | Raise e => if is_probe_failure e then Return false else Raise e
  | Hang => Hang
  end.


(** Lines 24-27 of [main.py]: [multiprocessing.cpu_count()], 1 when it
    raises an [Exception]. *)
Definition cpu_count (probe : Outcome Z) : Outcome Z :=
  match probe with
  | Raise e => if is_Exception e then Return 1 else Raise e
  | res => res
  end.

(** [default_workers = min(32, cpu_count * 4)]. *)
Definition default_workers (cpu_count : Z) : Z := Z.min 32 (cpu_count * 4).

End Startup.

(** More concrete services. *)
Module Fixture.

(** A host whose [node --version] prints the version and exits with 0. *)
Definition host_with_node : Host :=
  {| tmp_create := tmp_create Sample.host;
     tmp_write_fault := tmp_write_fault Sample.host;
     spawn := fun fs args =>
       match args with
       | [_; arg] =>
           if String.eqb arg "--version" then
             Return (mkProcess (Return ("v18.19.0" +:+ nl, "")) 0)
           else spawn Sample.host fs args
       | _ => spawn Sample.host fs args
       end;
     unlink_fault := unlink_fault Sample.host |}.

Definition PermissionError_node : PyExc :=
  {| exc_class := ExceptionSubclass "PermissionError";
     exc_str := "[Errno 13] Permission denied: 'node'";
     exc_traceback := "" |}.

(** A host whose [node] file may not be executed. *)
Definition host_node_not_executable : Host :=
  {| tmp_create := tmp_create Sample.host;
     tmp_write_fault := tmp_write_fault Sample.host;
     spawn := fun _ _ => Raise PermissionError_node;
     unlink_fault := unlink_fault Sample.host |}.

Definition FileNotFoundError_unlink : PyExc :=
  {| exc_class := ExceptionSubclass "FileNotFoundError";
     exc_str := "[Errno 2] No such file or directory: '/tmp/tmpq1w2e3.js'";
     exc_traceback := "" |}.

(** A host on which the temporary file is gone when the runner wants to
    remove it (the script deleted it). *)
Definition host_unlink_fails : Host :=
  {| tmp_create := tmp_create Sample.host;
     tmp_write_fault := tmp_write_fault Sample.host;
     spawn := spawn Sample.host;
     unlink_fault := fun _ _ => Some FileNotFoundError_unlink |}.

Definition BrokenProcessPool : PyExc :=
  {| exc_class := ExceptionSubclass "BrokenProcessPool";
     exc_str := "A process in the process pool was terminated abruptly while the future was running or pending.";
     exc_traceback := "" |}.

(** A request without an API key. *)
Definition anonymous_request (path : string) : Request :=
  {| path := path;
     x_api_key := None;
     body := {| language := "python3"; code := "print('hi')";
                preload := None; enable_network := None |} |}.

(** A server with one request counted and one of four permits taken. *)
Definition busy_server : Server :=
  {| semaphore := 3; current_requests := 1; trace := [Incremented 0; Acquired 0] |}.

End Fixture.

(* ===================================================================== *)
(** ** Properties of the embedded runner                                  *)
(* ===================================================================== *)

Lemma or_None_nonempty (s : string) : s <> "" -> or_None s = Some s.
Proof. destruct s; [congruence | reflexivity]. Qed.

Lemma or_None_is_None (s : string) : or_None s = None <-> s = "".
Proof. destruct s; simpl; split; congruence. Qed.

(** The runner's result when [exec] completed and both buffers can be
    read. *)
Lemma python_runner_completed exec code out err :
  run_end (exec code) = Return tt ->
  run_stdout (exec code) = Return out ->
  run_stderr (exec code) = Return err ->
  _run_python_code_in_process exec code =
    Return {| success := true; output := out; error := or_None err |}.
Proof.
  intros He Ho Hr. unfold _run_python_code_in_process. cbv zeta.
  rewrite He, Ho, Hr. reflexivity.
Qed.

(** The runner's result when [exec] completed and reading [stderr_buffer]
    raises: line 36 is inside [try], and the handler takes the error for a
    failure of the source. *)
Lemma python_runner_stderr_unreadable exec code out e :
  run_end (exec code) = Return tt ->
  run_stdout (exec code) = Return out ->
  run_stderr (exec code) = Raise e ->
  is_Exception e = true ->
  _run_python_code_in_process exec code =
    Return {| success := false; output := out; error := Some (format_error e) |}.
Proof.
  intros He Ho Hr Hexc. unfold _run_python_code_in_process, except_Exception.
  cbv zeta. rewrite He, Ho, Hr, Hexc. reflexivity.
Qed.

(** C6 fails on the code: the source [import sys; sys.stderr.close()]
    completes without raising, yet the runner returns [success = false],
    with the [ValueError] of [stderr_buffer.getvalue()] as error text. *)
Theorem python_runner_failure_after_completed_exec :
  run_end (Sample.exec "import sys; sys.stderr.close()") = Return tt /\
  run_stderr (Sample.exec "import sys; sys.stderr.close()") =
    Raise Sample.ValueError_closed /\
  _run_python_code_in_process Sample.exec "import sys; sys.stderr.close()" =
    Return {| success := false;
              output := "";
              error := Some ("I/O operation on closed file" +:+ nl +:+ nl +:+
                             "Traceback:" +:+ nl +:+
                             exc_traceback Sample.ValueError_closed) |}.
Proof.
  split; [reflexivity|]. split; [reflexivity|].
  rewrite (python_runner_stderr_unreadable Sample.exec
             "import sys; sys.stderr.close()" "" Sample.ValueError_closed)
    by reflexivity.
  reflexivity.
Qed.



(* ===================================================================== *)
(** ** Properties of the external runner                                  *)
(* ===================================================================== *)

(** Unfolds the runner's monadic code down to the host's answers. *)
Ltac run_node :=
  unfold _run_nodejs_code_in_process, try_except, NamedTemporaryFile, write,
    Popen, communicate, unlink, mbind, mret, OS_bind, OS_ret.

(** The whole run when the child exits: the file is gone and the result is
    chosen by the exit code alone. *)
Lemma nodejs_run_exited host code fs name process stdout stderr :
  process_exited host code fs name process stdout stderr ->
  _run_nodejs_code_in_process host code fs =
    (delete name (<[name := code]> (<[name := ""]> fs)),
     Return (if proc_returncode process =? 0
             then {| success := true; output := stdout; error := None |}
             else {| success := false; output := stdout; error := Some stderr |})).
Proof.
  intros (Hc & Hw & Hs & Hp & Hu). run_node.
  rewrite Hc, Hw, Hs, Hp, Hu.
  destruct (proc_returncode process =? 0); reflexivity.
Qed.

(** The whole run when [Popen] raises an [Exception]: nothing removes the
    file. *)
Lemma nodejs_run_spawn_failed host code fs name e :
  tmp_create host fs = Return name ->
  tmp_write_fault host (<[name := ""]> fs) name code = None ->
  spawn host (<[name := code]> (<[name := ""]> fs)) ["node"; name] = Raise e ->
  is_Exception e = true ->
  _run_nodejs_code_in_process host code fs =
    (<[name := code]> (<[name := ""]> fs),
     Return {| success := false; output := ""; error := Some (format_error e) |}).
Proof.
  intros Hc Hw Hs He. run_node. rewrite Hc, Hw, Hs, He. reflexivity.
Qed.

Lemma nodejs_temp_file_removed_on_exit host code fs name process stdout stderr :
  process_exited host code fs name process stdout stderr ->
  fst (_run_nodejs_code_in_process host code fs) !! name = None.
Proof.
  intros H. rewrite (nodejs_run_exited _ _ _ _ _ _ _ H). simpl.
  apply lookup_delete_eq.
Qed.

(** C1, as the code has it: when the child exits and its file is removed,
    [success] is true exactly when the exit code is 0 and [output] is the
    captured stdout; after a zero exit [error] is [None] whatever stderr
    held; after a non-zero exit [error] is the captured stderr as it is. *)
Theorem nodejs_result_by_exit_code :
  forall (host : Host) (code : string) (fs : FS) (name : string)
         (process : Process) (stdout stderr : string),
    process_exited host code fs name process stdout stderr ->
    exists r,
      snd (_run_nodejs_code_in_process host code fs) = Return r /\
      (success r = true <-> proc_returncode process = 0) /\
      output r = stdout /\
      (proc_returncode process = 0 -> error r = None) /\
      (proc_returncode process <> 0 -> error r = Some stderr).
Proof.
  intros host code fs name process stdout stderr H.
  rewrite (nodejs_run_exited _ _ _ _ _ _ _ H). simpl.
  destruct (Z.eqb_spec (proc_returncode process) 0) as [Hz|Hnz];
    eexists; (split; [reflexivity|]); simpl; repeat split;
    try congruence; try discriminate.
Qed.

Lemma nodejs_result_by_exit_code_witness :
  exists r,
    snd (_run_nodejs_code_in_process Sample.host "console.log('hi')" ∅) = Return r /\
    success r = true /\ output r = "hi" +:+ nl /\ error r = None.
Proof.
  destruct (nodejs_result_by_exit_code Sample.host "console.log('hi')" ∅
              "/tmp/tmpq1w2e3.js" (Sample.node "console.log('hi')") ("hi" +:+ nl) "")
    as (r & Hr & Hs & Ho & He & _).
  { repeat split; reflexivity. }
  exists r. repeat split; [exact Hr | apply Hs; reflexivity | exact Ho | apply He; reflexivity].
Defined.

(** C1, as stated, fails: [console.error('warn')] exits with code 0 after
    writing to stderr, and the result carries no error text. *)
Lemma nodejs_zero_exit_stderr_not_returned :
  process_exited Sample.host "console.error('warn')" ∅ "/tmp/tmpq1w2e3.js"
    (Sample.node "console.error('warn')") "" ("warn" +:+ nl) /\
  proc_returncode (Sample.node "console.error('warn')") = 0 /\
  "warn" +:+ nl <> "" /\
  exists r,
    snd (_run_nodejs_code_in_process Sample.host "console.error('warn')" ∅) = Return r /\
    success r = true /\
    error r <> Some ("warn" +:+ nl).
Proof.
  repeat split; try reflexivity; try discriminate.
  eexists. split; [vm_compute; reflexivity | split; [reflexivity | discriminate]].
Qed.

(** C10: when the child exits with a non-zero code and empty stderr, the
    result is [success = false] with [error] the empty string, not
    [None]; and such runs exist. *)
Theorem nodejs_failure_with_empty_error :
  (forall (host : Host) (code : string) (fs : FS) (name : string)
          (process : Process) (stdout : string),
     process_exited host code fs name process stdout "" ->
     proc_returncode process <> 0 ->
     snd (_run_nodejs_code_in_process host code fs) =
       Return {| success := false; output := stdout; error := Some "" |}) /\
  (exists (host : Host) (code : string) (fs : FS) (name : string)
          (process : Process) (stdout : string),
     process_exited host code fs name process stdout "" /\
     proc_returncode process <> 0).
Proof.
  split.
  - intros host code fs name process stdout H Hrc.
    rewrite (nodejs_run_exited _ _ _ _ _ _ _ H). simpl.
    destruct (Z.eqb_spec (proc_returncode process) 0); [contradiction | reflexivity].
  - exists Sample.host, "process.exit(3)", ∅, "/tmp/tmpq1w2e3.js",
      (Sample.node "process.exit(3)"), "".
    split; [repeat split; reflexivity | discriminate].
Qed.

Lemma nodejs_failure_with_empty_error_witness :
  snd (_run_nodejs_code_in_process Sample.host "process.exit(3)" ∅) =
    Return {| success := false; output := ""; error := Some "" |}.
Proof.
  apply (proj1 nodejs_failure_with_empty_error Sample.host "process.exit(3)" ∅
           "/tmp/tmpq1w2e3.js" (Sample.node "process.exit(3)") "").
  - repeat split; reflexivity.
  - discriminate.
Defined.

(** C2 fails on the code: on a host without a [node] binary [Popen]
    raises, the handler returns the failure, and the temporary file is
    still there with the source in it. *)
Theorem nodejs_temp_file_left_when_spawn_fails :
  spawn Sample.host_without_node
    (<["/tmp/tmpq1w2e3.js" := "console.log('hi')"]> (<["/tmp/tmpq1w2e3.js" := ""]> ∅))
    ["node"; "/tmp/tmpq1w2e3.js"] = Raise Sample.FileNotFoundError_node /\
  snd (_run_nodejs_code_in_process Sample.host_without_node "console.log('hi')" ∅) =
    Return {| success := false; output := "";
              error := Some (format_error Sample.FileNotFoundError_node) |} /\
  fst (_run_nodejs_code_in_process Sample.host_without_node "console.log('hi')" ∅)
    !! "/tmp/tmpq1w2e3.js" = Some "console.log('hi')".
Proof.
  split; [reflexivity|].
  rewrite (nodejs_run_spawn_failed Sample.host_without_node "console.log('hi')" ∅
             "/tmp/tmpq1w2e3.js" Sample.FileNotFoundError_node)
    by reflexivity.
  split; [reflexivity|]. simpl. apply lookup_insert_eq.
Qed.

(* ===================================================================== *)
(** ** Properties of the coordinator                                      *)
(* ===================================================================== *)

(** Not done within the deadline: the job never ends, or it ends at the
    deadline or later. *)
Lemma done_within_false fut t :
  done_within fut t = false <->
  fut_result fut = Hang \/ 1000 * t <= Z.of_nat (fut_elapsed_ms fut).
Proof.
  unfold done_within. destruct (fut_result fut) as [r|e|].
  - rewrite Z.ltb_ge. split; [auto | intros [H|H]; [discriminate | exact H]].
  - rewrite Z.ltb_ge. split; [auto | intros [H|H]; [discriminate | exact H]].
  - split; auto.
Qed.

Lemma wait_for_not_Hang fut t : wait_for fut t <> Hang.
Proof.
  unfold wait_for, done_within.
  destruct (fut_result fut); try discriminate;
    destruct (_ <? _); discriminate.
Qed.

Lemma submit_and_wait_not_Hang exec host pool fs self f code :
  snd (submit_and_wait exec host pool fs self f code) <> Hang.
Proof.
  unfold submit_and_wait, run_in_executor. simpl.
  destruct (submit_fault pool); [discriminate | apply wait_for_not_Hang].
Qed.

Lemma execute_body_not_Hang exec host pool fs self code language :
  snd (execute_body exec host pool fs self code language) <> Hang.
Proof.
  unfold execute_body.
  destruct (String.eqb language "python3"); [apply submit_and_wait_not_Hang|].
  destruct (String.eqb language "nodejs"); [|discriminate].
  destruct (negb (nodejs_available self)); [discriminate | apply submit_and_wait_not_Hang].
Qed.

(** [execute] in terms of its [try] body. *)
Lemma execute_unfold exec host pool fs self code language :
  execute exec host pool fs self code language =
    (fst (execute_body exec host pool fs self code language),
     match snd (execute_body exec host pool fs self code language) with
     | Raise e =>
         if is_TimeoutError e then Return (timeout_result self)
         else if is_Exception e then
           Return {| success := false; output := ""; error := Some (format_error e) |}
         else Raise e
     | res => res
     end).
Proof.
  unfold execute. destruct (execute_body _ _ _ _ _ _ _) as [calls res].
  destruct res; reflexivity.
Qed.

Lemma is_TimeoutError_is_Exception e : is_TimeoutError e = true -> is_Exception e = true.
Proof. unfold is_TimeoutError, is_Exception. destruct (exc_class e); congruence. Qed.

(** C7: an execution that was dispatched and is not done within the
    deadline makes [execute] return the timeout dictionary: [success] is
    false, [output] is empty and [error] is the fixed message holding the
    bound, whether the job ends later or never. *)
Theorem execute_timeout_result :
  forall (exec : Interp) (host : Host) (pool : Pool) (fs : FS)
         (self : CodeExecutor) (code language : string) (f : Runner) (fut : Future),
    (language = "python3" /\ f = PythonRunner \/
     language = "nodejs" /\ nodejs_available self = true /\ f = NodeRunner) ->
    run_in_executor pool (runner exec host fs f) code = Return fut ->
    done_within fut (timeout self) = false ->
    execute exec host pool fs self code language =
      ([Submitted f code],
       Return {| success := false;
                 output := "";
                 error := Some ("代码执行超时 (>" +:+ pretty (timeout self) +:+ "秒)") |}).
Proof.
  intros exec host pool fs self code language f fut Hlang Hsub Hlate.
  assert (Hbody : execute_body exec host pool fs self code language =
                  ([Submitted f code], Raise asyncio_TimeoutError)).
  { unfold execute_body.
    destruct Hlang as [[-> ->] | (-> & Hav & ->)]; simpl; [|rewrite Hav; simpl];
      unfold submit_and_wait; rewrite Hsub; unfold wait_for; rewrite Hlate; reflexivity. }
  rewrite execute_unfold, Hbody. reflexivity.
Qed.

Lemma execute_timeout_result_witness :
  execute Sample.exec Sample.host Sample.pool ∅ Sample.executor
    "while True: pass" "python3" =
    ([Submitted PythonRunner "while True: pass"],
     Return {| success := false; output := ""; error := Some "代码执行超时 (>10000秒)" |}) /\
  execute Sample.exec Sample.host (mkPool None None 5000) ∅ (mkExecutor 2 true)
    "console.log('hi')" "nodejs" =
    ([Submitted NodeRunner "console.log('hi')"],
     Return {| success := false; output := ""; error := Some "代码执行超时 (>2秒)" |}).
Proof.
  split.
  - apply (execute_timeout_result Sample.exec Sample.host Sample.pool ∅ Sample.executor
             "while True: pass" "python3" PythonRunner (mkFuture Hang 5)).
    + left. split; reflexivity.
    + reflexivity.
    + reflexivity.
  - apply (execute_timeout_result Sample.exec Sample.host (mkPool None None 5000) ∅
             (mkExecutor 2 true) "console.log('hi')" "nodejs" NodeRunner
             (mkFuture (Return {| success := true; output := "hi" +:+ nl; error := None |})
                       5000)).
    + right. repeat split; reflexivity.
    + reflexivity.
    + reflexivity.
Defined.

(** C8 fails on the code: [sys.exit(1)] raises [SystemExit] in the worker,
    the embedded runner's [except Exception] lets it pass, the future
    hands it to [execute], and neither [except] clause there catches it:
    the exception reaches the caller. *)
Theorem execute_propagates_SystemExit :
  execute Sample.exec Sample.host Sample.pool ∅ Sample.executor
    "import sys; sys.exit(1)" "python3" =
    ([Submitted PythonRunner "import sys; sys.exit(1)"], Raise Sample.SystemExit_1) /\
  forall r,
    snd (execute Sample.exec Sample.host Sample.pool ∅ Sample.executor
           "import sys; sys.exit(1)" "python3") <> Return r.
Proof. split; [reflexivity | discriminate]. Qed.

(** What the two [except] clauses of [execute] do achieve: [execute]
    always ends, and it ends either by returning a dictionary or by
    raising an exception that is not an [Exception].  A result of the
    [try] body is returned as it is, [TimeoutError] becomes the timeout
    dictionary, any other [Exception] becomes [success = false] with the
    message and traceback as [error]; an unsupported language and an
    unavailable Node.js each return their fixed failure. *)
Lemma execute_converts_every_Exception :
  forall (exec : Interp) (host : Host) (pool : Pool) (fs : FS)
         (self : CodeExecutor) (code language : string),
    ((exists r, snd (execute exec host pool fs self code language) = Return r) \/
     (exists e, snd (execute exec host pool fs self code language) = Raise e /\
                is_Exception e = false)) /\
    (forall r, snd (execute_body exec host pool fs self code language) = Return r ->
       snd (execute exec host pool fs self code language) = Return r) /\
    (forall e, snd (execute_body exec host pool fs self code language) = Raise e ->
       is_TimeoutError e = true ->
       snd (execute exec host pool fs self code language) = Return (timeout_result self)) /\
    (forall e, snd (execute_body exec host pool fs self code language) = Raise e ->
       is_TimeoutError e = false ->
       is_Exception e = true ->
       snd (execute exec host pool fs self code language) =
         Return {| success := false; output := "";
                   error := Some (exc_str e +:+ nl +:+ nl +:+ "Traceback:" +:+ nl +:+
                                  exc_traceback e) |}) /\
    (language <> "python3" -> language <> "nodejs" ->
       execute exec host pool fs self code language =
         ([], Return {| success := false; output := "";
                        error := Some ("不支持的语言: " +:+ language) |})) /\
    (language = "nodejs" -> nodejs_available self = false ->
       execute exec host pool fs self code language =
         ([], Return {| success := false; output := "";
                        error := Some "Node.js未安装或不可用" |})).
Proof.
  intros exec host pool fs self code language.
  rewrite execute_unfold. simpl.
  pose proof (execute_body_not_Hang exec host pool fs self code language) as Hnh.
  repeat split.
  - destruct (snd (execute_body exec host pool fs self code language)) as [r|e|] eqn:E.
    + left. eauto.
    + destruct (is_TimeoutError e); [left; eauto|].
      destruct (is_Exception e) eqn:Ee; [left; eauto | right; eauto].
    + contradiction.
  - intros r ->. reflexivity.
  - intros e -> ->. reflexivity.
  - intros e -> -> ->. reflexivity.
  - intros H1 H2. unfold execute_body.
    apply String.eqb_neq in H1, H2. rewrite H1, H2. reflexivity.
  - intros -> Hav. unfold execute_body. simpl. rewrite Hav. reflexivity.
Qed.

Lemma execute_converts_every_Exception_witness :
  snd (execute Sample.exec Sample.host
         (mkPool (Some (mkExc (ExceptionSubclass "RuntimeError")
                          "cannot schedule new futures after shutdown" "tb")) None 0)
         ∅ Sample.executor "print('hi')" "python3") =
    Return {| success := false; output := "";
              error := Some ("cannot schedule new futures after shutdown" +:+ nl +:+ nl +:+
                             "Traceback:" +:+ nl +:+ "tb") |} /\
  execute Sample.exec Sample.host Sample.pool ∅ Sample.executor "puts 1" "ruby" =
    ([], Return {| success := false; output := ""; error := Some "不支持的语言: ruby" |}).
Proof.
  split.
  - destruct (execute_converts_every_Exception Sample.exec Sample.host
                (mkPool (Some (mkExc (ExceptionSubclass "RuntimeError")
                                 "cannot schedule new futures after shutdown" "tb")) None 0)
                ∅ Sample.executor "print('hi')" "python3") as (_ & _ & _ & Hexc & _).
    apply (Hexc (mkExc (ExceptionSubclass "RuntimeError")
                   "cannot schedule new futures after shutdown" "tb"));
      reflexivity.
  - destruct (execute_converts_every_Exception Sample.exec Sample.host Sample.pool
                ∅ Sample.executor "puts 1" "ruby") as (_ & _ & _ & _ & Hlang & _).
    apply Hlang; discriminate.
Defined.

(* ===================================================================== *)
(** ** Properties of the admission control                                *)
(* ===================================================================== *)

Lemma geb_false_lt (a b : Z) : a < b -> (a >=? b) = false.
Proof. intros H. rewrite Z.geb_leb. apply Z.leb_gt. exact H. Qed.

Lemma geb_true_le (a b : Z) : b <= a -> (a >=? b) = true.
Proof. intros H. rewrite Z.geb_leb. apply Z.leb_le. exact H. Qed.

(** One admitted request running alone with a free permit: the whole of
    [dispatch], for a [call_next] that ends. *)
Lemma dispatch_admitted MAX_REQUESTS rid request (call_next : Handler) st :
  ConcurrencyMiddleware.is_run request = true ->
  current_requests st < MAX_REQUESTS ->
  semaphore st <> 0%nat ->
  snd call_next <> Hang ->
  ConcurrencyMiddleware.dispatch MAX_REQUESTS rid request call_next st =
    ({| semaphore := semaphore st;
        current_requests := current_requests st;
        trace := trace st ++ [Incremented rid; Acquired rid] ++
                 map (PoolCalled rid) (fst call_next) ++
                 [Released rid; Decremented rid] |},
     snd call_next).
Proof.
  intros Hrun Hlt Hsem Hend.
  unfold ConcurrencyMiddleware.dispatch. rewrite Hrun, (geb_false_lt _ _ Hlt).
  unfold try_finally, async_with_semaphore, acquire, increment, call, emit. simpl.
  destruct (semaphore st) as [|n] eqn:Hs; [contradiction|]. simpl.
  destruct (snd call_next) as [r|e|] eqn:Ho; try contradiction;
    unfold decrement, release, emit; simpl;
    (f_equal; f_equal; [lia | rewrite <- !app_assoc; reflexivity]).
Qed.

Lemma dispatch_rejected MAX_REQUESTS rid request (call_next : Handler) st :
  ConcurrencyMiddleware.is_run request = true ->
  MAX_REQUESTS <= current_requests st ->
  ConcurrencyMiddleware.dispatch MAX_REQUESTS rid request call_next st =
    (st, Return (Dict too_many_requests)).
Proof.
  intros Hrun Hge. unfold ConcurrencyMiddleware.dispatch.
  rewrite Hrun, (geb_true_le _ _ Hge). reflexivity.
Qed.

(** *** Counting requests by phase *)

Lemma count_if_replicate f n ph :
  f ph = false -> Loop.count_if f (replicate n ph) = 0%nat.
Proof.
  intros Hf. unfold Loop.count_if. induction n as [|n IH]; simpl; [reflexivity|].
  rewrite Hf. exact IH.
Qed.

(** Replacing the phase of one request moves the count by the difference
    of the two phases. *)
Lemma count_if_insert f (phs : list Loop.Phase) i p q :
  phs !! i = Some p ->
  (Loop.count_if f (<[i := q]> phs) + (if f p then 1 else 0) =
   Loop.count_if f phs + (if f q then 1 else 0))%nat.
Proof.
  unfold Loop.count_if. revert i.
  induction phs as [|a phs IH]; intros i Hi; [discriminate|].
  destruct i as [|i]; simpl in *.
  - inversion Hi; subst. destruct (f p), (f q); simpl; lia.
  - specialize (IH i Hi). destruct (f a); simpl; lia.
Qed.

Lemma acquire_current_requests rid st st' :
  acquire rid st = Some st' -> current_requests st' = current_requests st.
Proof.
  unfold acquire. destruct (semaphore st); [discriminate|].
  intros H. inversion H. reflexivity.
Qed.

Lemma step_counter_exact MAX_REQUESTS requests s s' :
  Loop.step MAX_REQUESTS requests s s' ->
  Loop.counter_exact s -> Loop.counter_exact s'.
Proof.
  unfold Loop.counter_exact, Loop.in_flight_count.
  intros Hstep. destruct Hstep as
    [i request st phs Hreq Hph Hrun Hge
    |i request st phs Hreq Hph Hrun Hlt
    |i st st' phs Hph Hacq
    |i e st phs Hph
    |i call_next st phs Hph Hend
    |i request call_next st phs Hreq Hph Hrun Hend]; simpl; intros Hinv.
  - pose proof (count_if_insert Loop.in_flight phs i _
                  (Loop.Finished (Return (Dict too_many_requests))) Hph) as Hc.
    simpl in Hc. lia.
  - pose proof (count_if_insert Loop.in_flight phs i _ Loop.Waiting Hph) as Hc.
    simpl in Hc. lia.
  - pose proof (count_if_insert Loop.in_flight phs i _ Loop.Handling Hph) as Hc.
    simpl in Hc. rewrite (acquire_current_requests _ _ _ Hacq). lia.
  - pose proof (count_if_insert Loop.in_flight phs i _ (Loop.Finished (Raise e)) Hph) as Hc.
    simpl in Hc. lia.
  - pose proof (count_if_insert Loop.in_flight phs i _
                  (Loop.Finished (snd call_next)) Hph) as Hc.
    simpl in Hc. lia.
  - pose proof (count_if_insert Loop.in_flight phs i _
                  (Loop.Finished (snd call_next)) Hph) as Hc.
    simpl in Hc. lia.
Qed.

Lemma reachable_counter_exact MAX_REQUESTS requests MAX_WORKERS s :
  Loop.reachable MAX_REQUESTS requests MAX_WORKERS s -> Loop.counter_exact s.
Proof.
  unfold Loop.reachable. intros Hr.
  eapply (rtc_ind_r (fun s => Loop.counter_exact s)); [ | | exact Hr].
  - unfold Loop.counter_exact, Loop.start, Loop.in_flight_count. simpl.
    rewrite count_if_replicate by reflexivity. reflexivity.
  - intros y z _ Hstep IH. eapply step_counter_exact; eassumption.
Qed.

(** With a ceiling that is not negative the counter stays at or below it. *)
Lemma reachable_counter_bounded MAX_REQUESTS requests MAX_WORKERS s :
  0 <= MAX_REQUESTS ->
  Loop.reachable MAX_REQUESTS requests MAX_WORKERS s ->
  current_requests (fst s) <= MAX_REQUESTS.
Proof.
  unfold Loop.reachable. intros Hmax Hr.
  eapply (rtc_ind_r (fun s => current_requests (fst s) <= MAX_REQUESTS)); [ | | exact Hr].
  - simpl. exact Hmax.
  - intros y z _ Hstep IH. destruct Hstep as
      [i request st phs Hreq Hph Hrun Hge
      |i request st phs Hreq Hph Hrun Hlt
      |i st st' phs Hph Hacq
      |i e st phs Hph
      |i call_next st phs Hph Hend
      |i request call_next st phs Hreq Hph Hrun Hend]; simpl in IH |- *; try lia.
    rewrite (acquire_current_requests _ _ _ Hacq). exact IH.
Qed.

(** At most [MAX_WORKERS] requests are handled at a time. *)
Lemma reachable_permits_exact MAX_REQUESTS requests MAX_WORKERS s :
  Loop.reachable MAX_REQUESTS requests MAX_WORKERS s ->
  Loop.permits_exact MAX_WORKERS s.
Proof.
  unfold Loop.reachable. intros Hr.
  eapply (rtc_ind_r (fun s => Loop.permits_exact MAX_WORKERS s)); [ | | exact Hr].
  - unfold Loop.permits_exact, Loop.start, Loop.running_count. simpl.
    rewrite count_if_replicate by reflexivity. lia.
  - unfold Loop.permits_exact, Loop.running_count.
    intros y z _ Hstep IH. destruct Hstep as
      [i request st phs Hreq Hph Hrun Hge
      |i request st phs Hreq Hph Hrun Hlt
      |i st st' phs Hph Hacq
      |i e st phs Hph
      |i call_next st phs Hph Hend
      |i request call_next st phs Hreq Hph Hrun Hend]; simpl in IH |- *;
      match goal with
      | |- context [ <[_ := ?q]> phs ] =>
          pose proof (count_if_insert Loop.running phs i _ q Hph) as Hc; simpl in Hc
      end; try lia.
    unfold acquire in Hacq. destruct (semaphore st) as [|n] eqn:Hs; [discriminate|].
    inversion Hacq; subst; simpl. lia.
Qed.

(** A request that arrives at the ceiling is never queued: after any step
    of the server it is still to be looked at, or it has been answered
    with the overload dictionary and the server is as it was. *)
Lemma step_at_ceiling MAX_REQUESTS requests st phs st' phs' i request :
  Loop.step MAX_REQUESTS requests (st, phs) (st', phs') ->
  requests !! i = Some request ->
  ConcurrencyMiddleware.is_run request = true ->
  phs !! i = Some Loop.Arrived ->
  MAX_REQUESTS <= current_requests st ->
  phs' !! i = Some Loop.Arrived \/
  (phs' !! i = Some (Loop.Finished (Return (Dict too_many_requests))) /\ st' = st).
Proof.
  intros Hstep Hreq Hrun Hph Hge.
  pose proof (lookup_lt_Some _ _ _ Hph) as Hlen.
  inversion Hstep; subst;
    match goal with
    | |- context [ <[?j := _]> phs ] =>
        destruct (decide (j = i)) as [->|Hne];
          [ | left; rewrite list_lookup_insert_ne by exact Hne; exact Hph ]
    end;
    try congruence.
  - right. split; [apply list_lookup_insert_eq; exact Hlen | reflexivity].
  - exfalso. pose proof (geb_true_le _ _ Hge). congruence.
Qed.

(** The run of [dispatch] for one request alone is a path of the event
    loop: admit, acquire, finish. *)
Lemma dispatch_admitted_steps MAX_REQUESTS requests rid request
      (call_next : Handler) st phs :
  requests !! rid = Some request ->
  phs !! rid = Some Loop.Arrived ->
  ConcurrencyMiddleware.is_run request = true ->
  current_requests st < MAX_REQUESTS ->
  semaphore st <> 0%nat ->
  snd call_next <> Hang ->
  rtc (Loop.step MAX_REQUESTS requests) (st, phs)
    (fst (ConcurrencyMiddleware.dispatch MAX_REQUESTS rid request call_next st),
     <[rid := Loop.Finished (snd call_next)]> phs).
Proof.
  intros Hreq Hph Hrun Hlt Hsem Hend.
  pose proof (lookup_lt_Some _ _ _ Hph) as Hlen.
  rewrite (dispatch_admitted _ _ _ _ _ Hrun Hlt Hsem Hend). simpl.
  destruct (semaphore st) as [|n] eqn:Hs; [contradiction|].
  eapply rtc_l.
  { eapply Loop.step_admit; eauto using geb_false_lt. }
  eapply rtc_l.
  { eapply (Loop.step_acquire _ _ rid).
    - apply list_lookup_insert_eq. exact Hlen.
    - unfold acquire, increment, emit. simpl. rewrite Hs. reflexivity. }
  eapply rtc_l.
  { eapply (Loop.step_finish _ _ rid call_next).
    - apply list_lookup_insert_eq. rewrite length_insert. exact Hlen.
    - exact Hend. }
  rewrite !list_insert_insert_eq.
  unfold decrement, release, call, emit. simpl.
  replace (current_requests st + 1 - 1) with (current_requests st) by lia.
  rewrite <- !app_assoc. simpl. apply rtc_refl.
Qed.

(** C4: an admitted request that runs with a free permit and whose
    [call_next] ends, in whatever way (a response, an [Exception], any
    other exception), leaves [dispatch] with that same outcome, with the
    counter at its value from before the request, after one increment and
    one decrement, the decrement last.  And however the requests
    interleave, the counter is at every moment the number of requests
    admitted and not finished. *)
Theorem in_flight_counter_restored :
  (forall (MAX_REQUESTS : Z) (rid : nat) (request : Request)
          (call_next : Handler) (st : Server),
     ConcurrencyMiddleware.is_run request = true ->
     current_requests st < MAX_REQUESTS ->
     semaphore st <> 0%nat ->
     snd call_next <> Hang ->
     exists st',
       ConcurrencyMiddleware.dispatch MAX_REQUESTS rid request call_next st =
         (st', snd call_next) /\
       current_requests st' = current_requests st /\
       trace st' = trace st ++ [Incremented rid; Acquired rid] ++
                   map (PoolCalled rid) (fst call_next) ++
                   [Released rid; Decremented rid]) /\
  (forall (MAX_REQUESTS : Z) (requests : list Request) (MAX_WORKERS : nat)
          (s : Loop.Sys),
     Loop.reachable MAX_REQUESTS requests MAX_WORKERS s ->
     current_requests (fst s) = Z.of_nat (Loop.in_flight_count (snd s))).
Proof.
  split.
  - intros MAX_REQUESTS rid request call_next st Hrun Hlt Hsem Hend.
    eexists. split; [apply dispatch_admitted; assumption|].
    split; reflexivity.
  - intros MAX_REQUESTS requests MAX_WORKERS s Hr.
    exact (reachable_counter_exact _ _ _ _ Hr).
Qed.

Lemma in_flight_counter_restored_witness :
  (exists st',
     ConcurrencyMiddleware.dispatch 1000 0 (Sample.run_request "python3" "import sys; sys.exit(1)")
       ([Submitted PythonRunner "import sys; sys.exit(1)"], Raise Sample.SystemExit_1)
       (ConcurrencyMiddleware.init 4) = (st', Raise Sample.SystemExit_1) /\
     current_requests st' = 0) /\
  current_requests (increment 0 (ConcurrencyMiddleware.init 4)) =
    Z.of_nat (Loop.in_flight_count [Loop.Waiting; Loop.Arrived]).
Proof.
  split.
  - destruct (proj1 in_flight_counter_restored 1000 0%nat
                (Sample.run_request "python3" "import sys; sys.exit(1)")
                ([Submitted PythonRunner "import sys; sys.exit(1)"], Raise Sample.SystemExit_1)
                (ConcurrencyMiddleware.init 4))
      as (st' & Hd & Hc & _);
      [reflexivity | reflexivity | discriminate | discriminate |].
    exists st'. split; [exact Hd | exact Hc].
  - apply (proj2 in_flight_counter_restored 1
             [Sample.run_request "python3" "print('hi')";
              Sample.run_request "python3" "print('hi')"] 4%nat
             (increment 0 (ConcurrencyMiddleware.init 4), [Loop.Waiting; Loop.Arrived])).
    apply rtc_once.
    apply (Loop.step_admit 1 _ 0%nat (Sample.run_request "python3" "print('hi')")
             (ConcurrencyMiddleware.init 4) [Loop.Arrived; Loop.Arrived]);
      reflexivity.
Defined.

(** C5: a run request that finds the counter at or above the ceiling gets
    the overload dictionary (code -503) at once and leaves the server as
    it was: the counter is not incremented, the semaphore is neither
    awaited nor taken, [call_next] is not called.  In the event loop such
    a request never becomes a waiting one, and with a ceiling that is not
    negative the number of requests in flight never exceeds it. *)
Theorem overload_rejected_at_ceiling :
  (forall (MAX_REQUESTS : Z) (rid : nat) (request : Request)
          (call_next : Handler) (st : Server),
     ConcurrencyMiddleware.is_run request = true ->
     MAX_REQUESTS <= current_requests st ->
     ConcurrencyMiddleware.dispatch MAX_REQUESTS rid request call_next st =
       (st, Return (Dict {| rsp_code := -503;
                            rsp_message := "Too many requests";
                            rsp_data := None |}))) /\
  (forall (MAX_REQUESTS : Z) (requests : list Request) (st st' : Server)
          (phs phs' : list Loop.Phase) (i : nat) (request : Request),
     Loop.step MAX_REQUESTS requests (st, phs) (st', phs') ->
     requests !! i = Some request ->
     ConcurrencyMiddleware.is_run request = true ->
     phs !! i = Some Loop.Arrived ->
     MAX_REQUESTS <= current_requests st ->
     phs' !! i = Some Loop.Arrived \/
     (phs' !! i = Some (Loop.Finished (Return (Dict too_many_requests))) /\ st' = st)) /\
  (forall (MAX_REQUESTS : Z) (requests : list Request) (MAX_WORKERS : nat)
          (s : Loop.Sys),
     0 <= MAX_REQUESTS ->
     Loop.reachable MAX_REQUESTS requests MAX_WORKERS s ->
     Z.of_nat (Loop.in_flight_count (snd s)) <= MAX_REQUESTS).
Proof.
  split; [|split].
  - intros MAX_REQUESTS rid request call_next st Hrun Hge.
    apply dispatch_rejected; assumption.
  - intros. eapply step_at_ceiling; eassumption.
  - intros MAX_REQUESTS requests MAX_WORKERS s Hmax Hr.
    rewrite <- (reachable_counter_exact _ _ _ _ Hr).
    eapply reachable_counter_bounded; eassumption.
Qed.

Lemma overload_rejected_at_ceiling_witness :
  ConcurrencyMiddleware.dispatch 1 1 (Sample.run_request "python3" "print('hi')")
    ([Submitted PythonRunner "print('hi')"], Return (Plain "unused"))
    (increment 0 (ConcurrencyMiddleware.init 4)) =
    (increment 0 (ConcurrencyMiddleware.init 4),
     Return (Dict {| rsp_code := -503; rsp_message := "Too many requests";
                     rsp_data := None |})) /\
  Z.of_nat (Loop.in_flight_count [Loop.Waiting; Loop.Arrived]) <= 1.
Proof.
  destruct overload_rejected_at_ceiling as (Hreject & _ & Hbound).
  split.
  - apply Hreject; [reflexivity | simpl; lia].
  - apply (Hbound 1
             [Sample.run_request "python3" "print('hi')";
              Sample.run_request "python3" "print('hi')"] 4%nat
             (increment 0 (ConcurrencyMiddleware.init 4), [Loop.Waiting; Loop.Arrived]));
      [lia|].
    apply rtc_once.
    apply (Loop.step_admit 1 _ 0%nat (Sample.run_request "python3" "print('hi')")
             (ConcurrencyMiddleware.init 4) [Loop.Arrived; Loop.Arrived]);
      reflexivity.
Defined.

(* ===================================================================== *)
(** ** Properties of the handler behind the middlewares                   *)
(* ===================================================================== *)

Lemma language_not_supported (language : string) :
  language <> "python3" -> language <> "nodejs" ->
  language_supported language = false.
Proof.
  intros H1 H2. unfold language_supported.
  apply String.eqb_neq in H1, H2. rewrite H1, H2. reflexivity.
Qed.

(** The handler answers an unsupported language without calling
    [executor.execute]. *)
Lemma execute_code_unsupported execute (request : CodeRequest) :
  language_supported (language request) = false ->
  execute_code execute request = ([], Return (Dict unsupported_language)).
Proof. intros H. unfold execute_code. rewrite H. reflexivity. Qed.

(** C3, as stated, fails: a request for [ruby] is answered with code -400,
    but only after the concurrency middleware has counted it and taken a
    permit of the semaphore for it. *)
Lemma unsupported_language_takes_permit :
  language_supported "ruby" = false /\
  app "dify-sandbox" 1000 Sample.execute 0 (Sample.run_request "ruby" "puts 1")
    (ConcurrencyMiddleware.init 4) =
    ({| semaphore := 4;
        current_requests := 0;
        trace := [Incremented 0; Acquired 0; Released 0; Decremented 0] |},
     Return (Dict unsupported_language)) /\
  In (Acquired 0)
    (trace (fst (app "dify-sandbox" 1000 Sample.execute 0
                   (Sample.run_request "ruby" "puts 1")
                   (ConcurrencyMiddleware.init 4)))).
Proof.
  split; [reflexivity|]. split; [reflexivity|].
  simpl. right. left. reflexivity.
Qed.

(** C3, as the code has it: a run request with an accepted API key and a
    language other than [python3] and [nodejs], admitted below the ceiling
    with a permit free, is answered by the handler with the fixed
    dictionary (code -400, data null), whatever [executor.execute] would
    do: no call reaches the process pool.  The request has gone through
    the concurrency middleware before: the counter was incremented and a
    permit taken, and both are given back when the handler returns. *)
Theorem unsupported_language_rejected_by_handler :
  forall (API_KEY : string) (MAX_REQUESTS : Z)
         (execute : string -> string -> list PoolCall * Outcome ExecResult)
         (rid : nat) (request : Request) (st : Server),
    path request = "/v1/sandbox/run" ->
    AuthMiddleware.rejected API_KEY (x_api_key request) = false ->
    language (body request) <> "python3" ->
    language (body request) <> "nodejs" ->
    current_requests st < MAX_REQUESTS ->
    semaphore st <> 0%nat ->
    execute_code execute (body request) =
      ([], Return (Dict {| rsp_code := -400;
                           rsp_message := "unsupported language";
                           rsp_data := None |})) /\
    app API_KEY MAX_REQUESTS execute rid request st =
      ({| semaphore := semaphore st;
          current_requests := current_requests st;
          trace := trace st ++
                   [Incremented rid; Acquired rid; Released rid; Decremented rid] |},
       Return (Dict {| rsp_code := -400;
                       rsp_message := "unsupported language";
                       rsp_data := None |})).
Proof.
  intros API_KEY MAX_REQUESTS execute rid request st Hpath Hkey Hpy Hnode Hlt Hsem.
  pose proof (execute_code_unsupported execute (body request)
                (language_not_supported _ Hpy Hnode)) as Hcode.
  split; [exact Hcode|].
  assert (Hinner : AuthMiddleware.dispatch API_KEY request (route execute request) =
                   ([], Return (Dict unsupported_language))).
  { unfold AuthMiddleware.dispatch, route. rewrite Hpath. simpl.
    rewrite Hkey. exact Hcode. }
  unfold app. rewrite Hinner.
  rewrite dispatch_admitted; try assumption.
  - reflexivity.
  - unfold ConcurrencyMiddleware.is_run. rewrite Hpath. reflexivity.
  - discriminate.
Qed.

Lemma unsupported_language_rejected_by_handler_witness :
  app "dify-sandbox" 1000 Sample.execute 7 (Sample.run_request "ruby" "puts 1")
    (ConcurrencyMiddleware.init 4) =
    ({| semaphore := 4;
        current_requests := 0;
        trace := [Incremented 7; Acquired 7; Released 7; Decremented 7] |},
     Return (Dict {| rsp_code := -400;
                     rsp_message := "unsupported language";
                     rsp_data := None |})).
Proof.
  apply (proj2 (unsupported_language_rejected_by_handler "dify-sandbox" 1000
                  Sample.execute 7%nat (Sample.run_request "ruby" "puts 1")
                  (ConcurrencyMiddleware.init 4)
                  eq_refl eq_refl
                  ltac:(discriminate) ltac:(discriminate)
                  ltac:(reflexivity) ltac:(discriminate))).
Defined.

(* ===================================================================== *)
(** ** More on the two runners                                            *)
(* ===================================================================== *)




(** X2: the external runner reports [success = true] only for a run in
    which the temporary file was created and written, [node] was started
    on it, exited with code 0 and the file was removed; the result is then
    the captured stdout with no error text. *)
Theorem nodejs_success_means_zero_exit :
  forall (host : Host) (code : string) (fs : FS) (r : ExecResult),
    snd (_run_nodejs_code_in_process host code fs) = Return r ->
    success r = true ->
    exists (name : string) (process : Process) (stdout stderr : string),
      process_exited host code fs name process stdout stderr /\
      proc_returncode process = 0 /\
      r = {| success := true; output := stdout; error := None |}.
Proof.
  intros host code fs r. run_node.
  destruct (tmp_create host fs) as [name|e|] eqn:Hc; simpl.
  2: { destruct (is_Exception e); simpl; intros H; inversion H; subst; discriminate. }
  2: { discriminate. }
  destruct (tmp_write_fault host (<[name:=""]> fs) name code) as [e|] eqn:Hw; simpl.
  { destruct (is_Exception e); simpl; intros H; inversion H; subst; discriminate. }
  destruct (spawn host (<[name:=code]> (<[name:=""]> fs)) ["node"; name])
    as [process|e|] eqn:Hs; simpl.
  2: { destruct (is_Exception e); simpl; intros H; inversion H; subst; discriminate. }
  2: { discriminate. }
  destruct (proc_communicate process) as [[stdout stderr]|e|] eqn:Hp; simpl.
  2: { destruct (is_Exception e); simpl; intros H; inversion H; subst; discriminate. }
  2: { discriminate. }
  destruct (unlink_fault host (<[name:=code]> (<[name:=""]> fs)) name) as [e|] eqn:Hu; simpl.
  { destruct (is_Exception e); simpl; intros H; inversion H; subst; discriminate. }
  destruct (Z.eqb_spec (proc_returncode process) 0) as [Hz|Hnz]; simpl;
    intros H; inversion H; subst; simpl; [|discriminate].
  intros _. exists name, process, stdout, stderr.
  repeat split; assumption.
Qed.

Lemma nodejs_success_means_zero_exit_witness :
  exists (name : string) (process : Process) (stdout stderr : string),
    process_exited Sample.host "console.log('hi')" ∅ name process stdout stderr /\
    proc_returncode process = 0 /\
    {| success := true; output := "hi" +:+ nl; error := None |} =
      {| success := true; output := stdout; error := None |}.
Proof.
  apply (nodejs_success_means_zero_exit Sample.host "console.log('hi')" ∅
           {| success := true; output := "hi" +:+ nl; error := None |});
    reflexivity.
Defined.

(** X4: when the child has exited and [os.unlink] then raises an
    [Exception], the runner reports a failure whatever the exit code was:
    [output] is empty, the captured stdout and stderr are lost, [error]
    is the message and traceback of the removal error. *)
Theorem nodejs_unlink_error_discards_output :
  forall (host : Host) (code : string) (fs : FS) (name : string)
         (process : Process) (stdout stderr : string) (e : PyExc),
    tmp_create host fs = Return name ->
    tmp_write_fault host (<[name := ""]> fs) name code = None ->
    spawn host (<[name := code]> (<[name := ""]> fs)) ["node"; name] = Return process ->
    proc_communicate process = Return (stdout, stderr) ->
    unlink_fault host (<[name := code]> (<[name := ""]> fs)) name = Some e ->
    is_Exception e = true ->
    snd (_run_nodejs_code_in_process host code fs) =
      Return {| success := false;
                output := "";
                error := Some (exc_str e +:+ nl +:+ nl +:+ "Traceback:" +:+ nl +:+
                               exc_traceback e) |}.
Proof.
  intros host code fs name process stdout stderr e Hc Hw Hs Hp Hu He.
  run_node. rewrite Hc, Hw, Hs, Hp, Hu, He. reflexivity.
Qed.

Lemma nodejs_unlink_error_discards_output_witness :
  proc_communicate (Sample.node "console.log('hi')") = Return ("hi" +:+ nl, "") /\
  proc_returncode (Sample.node "console.log('hi')") = 0 /\
  snd (_run_nodejs_code_in_process Fixture.host_unlink_fails "console.log('hi')" ∅) =
    Return {| success := false;
              output := "";
              error := Some ("[Errno 2] No such file or directory: '/tmp/tmpq1w2e3.js'"
                             +:+ nl +:+ nl +:+ "Traceback:" +:+ nl) |}.
Proof.
  split; [reflexivity|]. split; [reflexivity|].
  apply (nodejs_unlink_error_discards_output Fixture.host_unlink_fails
           "console.log('hi')" ∅ "/tmp/tmpq1w2e3.js" (Sample.node "console.log('hi')")
           ("hi" +:+ nl) "" Fixture.FileNotFoundError_unlink); reflexivity.
Defined.

(* ===================================================================== *)
(** ** Properties of the start-up code                                    *)
(* ===================================================================== *)

Ltac run_probe :=
  unfold Startup.check_nodejs_available, Startup.subprocess_run_check,
    Startup.os_raise, Popen, communicate, mbind, mret, OS_bind, OS_ret.

Lemma probe_spawn_raises host fs e :
  spawn host fs ["node"; "--version"] = Raise e ->
  Startup.check_nodejs_available host fs =
    if Startup.is_probe_failure e then Return false else Raise e.
Proof. intros Hs. run_probe. simpl. rewrite Hs. reflexivity. Qed.

(** X5: the probe answers [True] exactly when [node --version] could be
    started and exited with code 0, and [False] when it exited with
    another code; when [node] cannot be started it answers [False] for a
    [FileNotFoundError] or a [SubprocessError], and any other exception
    (a [PermissionError]) leaves the probe. *)
Theorem check_nodejs_available_cases :
  forall (host : Host) (fs : FS),
    (forall (process : Process) (out err : string),
       spawn host fs ["node"; "--version"] = Return process ->
       proc_communicate process = Return (out, err) ->
       Startup.check_nodejs_available host fs =
         Return (proc_returncode process =? 0)) /\
    (forall e : PyExc,
       spawn host fs ["node"; "--version"] = Raise e ->
       Startup.check_nodejs_available host fs =
         if Startup.is_probe_failure e then Return false else Raise e) /\
    (Startup.check_nodejs_available host fs = Return true ->
       exists (process : Process) (out err : string),
         spawn host fs ["node"; "--version"] = Return process /\
         proc_communicate process = Return (out, err) /\
         proc_returncode process = 0).
Proof.
  intros host fs. split; [|split].
  - intros process out err Hs Hp. run_probe. simpl. rewrite Hs, Hp.
    destruct (proc_returncode process =? 0); reflexivity.
  - intros e. apply probe_spawn_raises.
  - run_probe. simpl.
    destruct (spawn host fs ["node"; "--version"]) as [process|e|] eqn:Hs; simpl.
    + destruct (proc_communicate process) as [[out err]|e|] eqn:Hp; simpl.
      * destruct (Z.eqb_spec (proc_returncode process) 0) as [Hz|Hnz]; simpl.
        -- intros _. exists process, out, err. repeat split; assumption.
        -- discriminate.
      * destruct (Startup.is_probe_failure e); discriminate.
      * discriminate.
    + destruct (Startup.is_probe_failure e); discriminate.
    + discriminate.
Qed.

Lemma check_nodejs_available_cases_witness :
  Startup.check_nodejs_available Fixture.host_with_node ∅ = Return true /\
  Startup.check_nodejs_available Sample.host ∅ = Return false /\
  Startup.check_nodejs_available Sample.host_without_node ∅ = Return false /\
  Startup.check_nodejs_available Fixture.host_node_not_executable ∅ =
    Raise Fixture.PermissionError_node.
Proof.
  split; [|split; [|split]].
  - apply (proj1 (check_nodejs_available_cases Fixture.host_with_node ∅)
             (mkProcess (Return ("v18.19.0" +:+ nl, "")) 0) ("v18.19.0" +:+ nl) "");
      reflexivity.
  - apply (proj1 (check_nodejs_available_cases Sample.host ∅)
             (Sample.node "") "" ("Uncaught Error" +:+ nl)); reflexivity.
  - apply (proj1 (proj2 (check_nodejs_available_cases Sample.host_without_node ∅))
             Sample.FileNotFoundError_node). reflexivity.
  - apply (proj1 (proj2 (check_nodejs_available_cases Fixture.host_node_not_executable ∅))
             Fixture.PermissionError_node). reflexivity.
Defined.



(** X7: whenever [multiprocessing.cpu_count()] returns a positive number
    or raises an [Exception], the default number of workers is at least 4
    and at most 32; it is 4 when the count cannot be determined and 32
    from eight processors on. *)
Theorem default_workers_between_4_and_32 :
  (forall probe : Outcome Z,
     (forall n, probe = Return n -> 1 <= n) ->
     (forall e, probe = Raise e -> is_Exception e = true) ->
     probe <> Hang ->
     exists c, Startup.cpu_count probe = Return c /\
               4 <= Startup.default_workers c <= 32) /\
  (forall e, is_Exception e = true ->
     exists c, Startup.cpu_count (Raise e) = Return c /\
               Startup.default_workers c = 4) /\
  (forall n, 8 <= n -> Startup.default_workers n = 32).
Proof.
  unfold Startup.default_workers, Startup.cpu_count. split; [|split].
  - intros probe Hpos Hexc Hend. destruct probe as [n|e|].
    + exists n. split; [reflexivity|]. specialize (Hpos n eq_refl). lia.
    + rewrite (Hexc e eq_refl). exists 1. split; [reflexivity | lia].
    + contradiction.
  - intros e ->. exists 1. split; reflexivity.
  - intros n Hn. lia.
Qed.

Lemma default_workers_between_4_and_32_witness :
  (exists c, Startup.cpu_count (Return 2) = Return c /\
             4 <= Startup.default_workers c <= 32) /\
  Startup.default_workers 16 = 32.
Proof.
  destruct default_workers_between_4_and_32 as (Hbounds & _ & Hmany).
  split.
  - apply Hbounds.
    + intros n H. inversion H. lia.
    + discriminate.
    + discriminate.
  - apply Hmany. lia.
Defined.

(* ===================================================================== *)
(** ** More on the coordinator                                            *)
(* ===================================================================== *)

Lemma execute_body_dispatches exec host pool fs self code language f :
  dispatches self language f ->
  execute_body exec host pool fs self code language =
    submit_and_wait exec host pool fs self f code.
Proof.
  unfold execute_body. intros [[-> ->] | (-> & Hav & ->)]; simpl;
    [|rewrite Hav]; reflexivity.
Qed.

(** What awaiting the submitted job gives when the pool accepts it. *)
Lemma submit_and_wait_accepted exec host pool fs self f code :
  submit_fault pool = None ->
  snd (submit_and_wait exec host pool fs self f code) =
    match worker_fault pool with
    | Some e =>
        if Z.of_nat (elapsed_ms pool) <? 1000 * timeout self
        then Raise e else Raise asyncio_TimeoutError
    | None =>
        match runner exec host fs f code with
        | Hang => Raise asyncio_TimeoutError
        | res =>
            if Z.of_nat (elapsed_ms pool) <? 1000 * timeout self
            then res else Raise asyncio_TimeoutError
        end
    end.
Proof.
  intros Hsub. unfold submit_and_wait, run_in_executor, wait_for, done_within.
  simpl. rewrite Hsub. simpl.
  destruct (worker_fault pool); simpl; [reflexivity|].
  destruct (runner exec host fs f code); reflexivity.
Qed.

(** X8: one call of [execute] submits at most one job to the pool and
    never retries: it submits exactly one, the given code to the runner of
    the given language, for [python3] and for [nodejs] when Node.js is
    available, and none otherwise. *)
Theorem execute_submits_at_most_once :
  forall (exec : Interp) (host : Host) (pool : Pool) (fs : FS)
         (self : CodeExecutor) (code language : string),
    (fst (execute exec host pool fs self code language) = [] /\
     language <> "python3" /\
     (language <> "nodejs" \/ nodejs_available self = false)) \/
    (exists f : Runner,
       fst (execute exec host pool fs self code language) = [Submitted f code] /\
       ((language = "python3" /\ f = PythonRunner) \/
        (language = "nodejs" /\ nodejs_available self = true /\ f = NodeRunner))).
Proof.
  intros exec host pool fs self code language.
  rewrite execute_unfold. simpl. unfold execute_body.
  destruct (String.eqb_spec language "python3") as [->|Hpy].
  { right. exists PythonRunner. split; [reflexivity | left; split; reflexivity]. }
  destruct (String.eqb_spec language "nodejs") as [->|Hnode].
  - destruct (nodejs_available self) eqn:Hav; simpl.
    + right. exists NodeRunner. split; [reflexivity | right; repeat split; assumption].
    + left. repeat split; [exact Hpy | right; reflexivity].
  - left. repeat split; [exact Hpy | left; exact Hnode].
Qed.

(** X9: a result with [success = true] comes out of [execute] only when a
    job was submitted, the pool accepted it, the worker survived, the
    runner returned that very result, and it did so before the deadline. *)
Theorem execute_success_comes_from_runner :
  forall (exec : Interp) (host : Host) (pool : Pool) (fs : FS)
         (self : CodeExecutor) (code language : string) (r : ExecResult),
    snd (execute exec host pool fs self code language) = Return r ->
    success r = true ->
    exists f : Runner,
      fst (execute exec host pool fs self code language) = [Submitted f code] /\
      submit_fault pool = None /\
      worker_fault pool = None /\
      runner exec host fs f code = Return r /\
      Z.of_nat (elapsed_ms pool) < 1000 * timeout self.
Proof.
  intros exec host pool fs self code language r.
  assert (Hwait : forall f,
    match snd (submit_and_wait exec host pool fs self f code) with
    | Raise e =>
        if is_TimeoutError e then Return (timeout_result self)
        else if is_Exception e then
          Return {| success := false; output := ""; error := Some (format_error e) |}
        else Raise e
    | res => res
    end = Return r ->
    success r = true ->
    submit_fault pool = None /\ worker_fault pool = None /\
    runner exec host fs f code = Return r /\
    Z.of_nat (elapsed_ms pool) < 1000 * timeout self).
  { intros f. destruct (submit_fault pool) as [e|] eqn:Hsub.
    - unfold submit_and_wait, run_in_executor. simpl. rewrite Hsub.
      destruct (is_TimeoutError e); [|destruct (is_Exception e)];
        intros H; inversion H; subst; discriminate.
    - rewrite (submit_and_wait_accepted _ _ _ _ _ _ _ Hsub).
      destruct (worker_fault pool) as [e|] eqn:Hw.
      + destruct (_ <? _); simpl;
          [destruct (is_TimeoutError e); [|destruct (is_Exception e)]|];
          intros H; inversion H; subst; discriminate.
      + destruct (runner exec host fs f code) as [r'|e|] eqn:Hr.
        * destruct (Z.ltb_spec (Z.of_nat (elapsed_ms pool)) (1000 * timeout self))
            as [Hlt|Hge]; simpl; intros H; inversion H; subst; [auto | discriminate].
        * destruct (_ <? _); simpl;
            [destruct (is_TimeoutError e); [|destruct (is_Exception e)]|];
            intros H; inversion H; subst; discriminate.
        * simpl. intros H; inversion H; subst; discriminate. }
  rewrite execute_unfold. simpl. unfold execute_body.
  destruct (String.eqb language "python3").
  { intros H Hs. exists PythonRunner. split; [reflexivity | exact (Hwait _ H Hs)]. }
  destruct (String.eqb language "nodejs").
  - destruct (nodejs_available self); simpl.
    + intros H Hs. exists NodeRunner. split; [reflexivity | exact (Hwait _ H Hs)].
    + intros H; inversion H; subst; discriminate.
  - simpl. intros H; inversion H; subst; discriminate.
Qed.

Lemma execute_success_comes_from_runner_witness :
  exists f : Runner,
    fst (execute Sample.exec Sample.host Sample.pool ∅ Sample.executor
           "print('hi')" "python3") = [Submitted f "print('hi')"] /\
    runner Sample.exec Sample.host ∅ f "print('hi')" =
      Return {| success := true; output := "hi" +:+ nl; error := None |}.
Proof.
  destruct (execute_success_comes_from_runner Sample.exec Sample.host Sample.pool ∅
              Sample.executor "print('hi')" "python3"
              {| success := true; output := "hi" +:+ nl; error := None |}
              eq_refl eq_refl) as (f & Hcalls & _ & _ & Hrun & _).
  exists f. split; assumption.
Defined.

(** X10: when the pool accepts the job, the worker survives and the runner
    returns before the deadline, [execute] returns the runner's dictionary
    unchanged, a reported failure as well as a success. *)
Theorem execute_returns_runner_result :
  forall (exec : Interp) (host : Host) (pool : Pool) (fs : FS)
         (self : CodeExecutor) (code language : string) (f : Runner) (r : ExecResult),
    dispatches self language f ->
    submit_fault pool = None ->
    worker_fault pool = None ->
    Z.of_nat (elapsed_ms pool) < 1000 * timeout self ->
    runner exec host fs f code = Return r ->
    execute exec host pool fs self code language = ([Submitted f code], Return r).
Proof.
  intros exec host pool fs self code language f r Hd Hsub Hw Ht Hr.
  rewrite execute_unfold, (execute_body_dispatches _ _ _ _ _ _ _ _ Hd).
  rewrite (submit_and_wait_accepted _ _ _ _ _ _ _ Hsub), Hw, Hr.
  apply Z.ltb_lt in Ht. rewrite Ht. reflexivity.
Qed.

Lemma execute_returns_runner_result_witness :
  execute Sample.exec Sample.host Sample.pool ∅ Sample.executor
    "process.exit(3)" "nodejs" =
    ([Submitted NodeRunner "process.exit(3)"],
     Return {| success := false; output := ""; error := Some "" |}).
Proof.
  apply (execute_returns_runner_result Sample.exec Sample.host Sample.pool ∅
           Sample.executor "process.exit(3)" "nodejs" NodeRunner).
  - right. repeat split; reflexivity.
  - reflexivity.
  - reflexivity.
  - reflexivity.
  - reflexivity.
Defined.

(** X11: with a timeout of zero or less every submitted job is reported
    as timed out, however fast it is. *)
Theorem execute_nonpositive_timeout :
  forall (exec : Interp) (host : Host) (pool : Pool) (fs : FS)
         (self : CodeExecutor) (code language : string) (f : Runner),
    timeout self <= 0 ->
    dispatches self language f ->
    submit_fault pool = None ->
    execute exec host pool fs self code language =
      ([Submitted f code],
       Return {| success := false; output := "";
                 error := Some ("代码执行超时 (>" +:+ pretty (timeout self) +:+ "秒)") |}).
Proof.
  intros exec host pool fs self code language f Ht Hd Hsub.
  rewrite execute_unfold, (execute_body_dispatches _ _ _ _ _ _ _ _ Hd).
  rewrite (submit_and_wait_accepted _ _ _ _ _ _ _ Hsub).
  assert (Hlate : (Z.of_nat (elapsed_ms pool) <? 1000 * timeout self) = false)
    by (apply Z.ltb_ge; lia).
  rewrite Hlate. simpl.
  destruct (worker_fault pool); [reflexivity|].
  destruct (runner exec host fs f code); reflexivity.
Qed.

Lemma execute_nonpositive_timeout_witness :
  execute Sample.exec Sample.host (mkPool None None 0) ∅ (mkExecutor 0 true)
    "print('hi')" "python3" =
    ([Submitted PythonRunner "print('hi')"],
     Return {| success := false; output := ""; error := Some "代码执行超时 (>0秒)" |}).
Proof.
  apply (execute_nonpositive_timeout Sample.exec Sample.host (mkPool None None 0) ∅
           (mkExecutor 0 true) "print('hi')" "python3" PythonRunner).
  - simpl. lia.
  - left. split; reflexivity.
  - reflexivity.
Defined.

(** X12: a pool that refuses the job, or a worker that dies under it
    before the deadline, with an [Exception] other than [TimeoutError],
    makes [execute] return a failure without output whose [error] is the
    message and traceback of that exception; the runner's own result is
    not seen. *)
Theorem execute_reports_pool_failure :
  forall (exec : Interp) (host : Host) (pool : Pool) (fs : FS)
         (self : CodeExecutor) (code language : string) (f : Runner) (e : PyExc),
    dispatches self language f ->
    is_Exception e = true ->
    is_TimeoutError e = false ->
    (submit_fault pool = Some e \/
     (submit_fault pool = None /\ worker_fault pool = Some e /\
      Z.of_nat (elapsed_ms pool) < 1000 * timeout self)) ->
    execute exec host pool fs self code language =
      ([Submitted f code],
       Return {| success := false; output := "";
                 error := Some (exc_str e +:+ nl +:+ nl +:+ "Traceback:" +:+ nl +:+
                                exc_traceback e) |}).
Proof.
  intros exec host pool fs self code language f e Hd He Hnt Hfault.
  rewrite execute_unfold, (execute_body_dispatches _ _ _ _ _ _ _ _ Hd).
  destruct Hfault as [Hsub | (Hsub & Hw & Ht)].
  - unfold submit_and_wait, run_in_executor. simpl. rewrite Hsub, Hnt, He. reflexivity.
  - rewrite (submit_and_wait_accepted _ _ _ _ _ _ _ Hsub), Hw.
    apply Z.ltb_lt in Ht. rewrite Ht, Hnt, He. reflexivity.
Qed.

Lemma execute_reports_pool_failure_witness :
  execute Sample.exec Sample.host (mkPool None (Some Fixture.BrokenProcessPool) 5) ∅
    Sample.executor "print('hi')" "python3" =
    ([Submitted PythonRunner "print('hi')"],
     Return {| success := false; output := "";
               error := Some (exc_str Fixture.BrokenProcessPool +:+ nl +:+ nl +:+
                              "Traceback:" +:+ nl) |}).
Proof.
  apply (execute_reports_pool_failure Sample.exec Sample.host
           (mkPool None (Some Fixture.BrokenProcessPool) 5) ∅
           Sample.executor "print('hi')" "python3" PythonRunner
           Fixture.BrokenProcessPool).
  - left. split; reflexivity.
  - reflexivity.
  - reflexivity.
  - right. repeat split; reflexivity.
Defined.

(* ===================================================================== *)
(** ** More on the middlewares and the handler                            *)
(* ===================================================================== *)

Lemma prefix_app_l (a b p : string) :
  String.prefix (a +:+ b) p = true -> String.prefix a p = true.
Proof.
  revert p. induction a as [|c a IH]; intros p; destruct p as [|d p]; simpl;
    try reflexivity; try discriminate.
  destruct (Ascii.ascii_dec c d); [apply IH | discriminate].
Qed.

(** A run path is a path under [/v1/sandbox]. *)
Lemma is_run_under_sandbox (request : Request) :
  ConcurrencyMiddleware.is_run request = true ->
  String.prefix "/v1/sandbox" (path request) = true.
Proof.
  unfold ConcurrencyMiddleware.is_run. intros H.
  apply (prefix_app_l "/v1/sandbox" "/run"). exact H.
Qed.

Lemma or_empty_or_None (s : string) : or_empty (or_None s) = s.
Proof. destruct s; reflexivity. Qed.

Lemma server_eta (st : Server) :
  {| semaphore := semaphore st;
     current_requests := current_requests st;
     trace := trace st ++ [] |} = st.
Proof. destruct st. simpl. rewrite app_nil_r. reflexivity. Qed.

(** X13: for a path under [/v1/sandbox] the authentication middleware
    lets the request through exactly when the [X-Api-Key] header is
    present, not empty and equal to [API_KEY]; otherwise it answers 401
    with code -401 and the inner application is not run.  Other paths
    pass without a key.  With an empty [API_KEY] no key is accepted. *)
Theorem auth_dispatch_cases :
  forall (API_KEY : string) (request : Request) (call_next : Handler),
    (String.prefix "/v1/sandbox" (path request) = false ->
       AuthMiddleware.dispatch API_KEY request call_next = call_next) /\
    (String.prefix "/v1/sandbox" (path request) = true ->
       x_api_key request = Some API_KEY ->
       API_KEY <> "" ->
       AuthMiddleware.dispatch API_KEY request call_next = call_next) /\
    (String.prefix "/v1/sandbox" (path request) = true ->
       (x_api_key request = None \/
        x_api_key request = Some "" \/
        exists k, x_api_key request = Some k /\ k <> API_KEY) ->
       AuthMiddleware.dispatch API_KEY request call_next =
         ([], Return (JSONResponse 401 {| rsp_code := -401;
                                          rsp_message := "Unauthorized";
                                          rsp_data := None |}))) /\
    (String.prefix "/v1/sandbox" (path request) = true ->
       API_KEY = "" ->
       AuthMiddleware.dispatch API_KEY request call_next =
         ([], Return (JSONResponse 401 {| rsp_code := -401;
                                          rsp_message := "Unauthorized";
                                          rsp_data := None |}))).
Proof.
  intros API_KEY request call_next. unfold AuthMiddleware.dispatch.
  split; [|split; [|split]].
  - intros ->. reflexivity.
  - intros -> -> Hne. simpl.
    apply String.eqb_neq in Hne. rewrite Hne, String.eqb_refl. reflexivity.
  - intros -> [-> | [-> | (k & -> & Hk)]]; simpl; try reflexivity.
    apply String.eqb_neq in Hk. rewrite Hk, orb_true_r. reflexivity.
  - intros -> ->. unfold AuthMiddleware.rejected.
    destruct (x_api_key request) as [k|]; [|reflexivity].
    destruct (String.eqb k ""); reflexivity.
Qed.

Lemma auth_dispatch_cases_witness :
  AuthMiddleware.dispatch "dify-sandbox" (Sample.run_request "python3" "print('hi')")
    ([], Return (Plain "inner")) = ([], Return (Plain "inner")) /\
  AuthMiddleware.dispatch "dify-sandbox" (Fixture.anonymous_request "/v1/sandbox/run")
    ([], Return (Plain "inner")) =
    ([], Return (JSONResponse 401 {| rsp_code := -401; rsp_message := "Unauthorized";
                                     rsp_data := None |})) /\
  AuthMiddleware.dispatch "dify-sandbox" (Fixture.anonymous_request "/health")
    ([], Return (Plain "inner")) = ([], Return (Plain "inner")) /\
  AuthMiddleware.dispatch "" (Sample.run_request "python3" "print('hi')")
    ([], Return (Plain "inner")) =
    ([], Return (JSONResponse 401 {| rsp_code := -401; rsp_message := "Unauthorized";
                                     rsp_data := None |})).
Proof.
  split; [|split; [|split]].
  - apply (proj1 (proj2 (auth_dispatch_cases "dify-sandbox"
                           (Sample.run_request "python3" "print('hi')")
                           ([], Return (Plain "inner")))));
      [reflexivity | reflexivity | discriminate].
  - apply (proj1 (proj2 (proj2 (auth_dispatch_cases "dify-sandbox"
                                  (Fixture.anonymous_request "/v1/sandbox/run")
                                  ([], Return (Plain "inner"))))));
      [reflexivity | left; reflexivity].
  - apply (proj1 (auth_dispatch_cases "dify-sandbox"
                    (Fixture.anonymous_request "/health")
                    ([], Return (Plain "inner")))).
    reflexivity.
  - apply (proj2 (proj2 (proj2 (auth_dispatch_cases ""
                                  (Sample.run_request "python3" "print('hi')")
                                  ([], Return (Plain "inner"))))));
      reflexivity.
Defined.

(** X14: the ceiling is checked before the API key.  A run request that
    finds the counter at the ceiling gets the overload dictionary whether
    its key is good or not; a run request with a bad key that is admitted
    gets the 401 answer only after it was counted and took a permit, both
    given back, and reaches neither the handler nor the pool. *)
Theorem overload_checked_before_api_key :
  forall (API_KEY : string) (MAX_REQUESTS : Z)
         (execute : string -> string -> list PoolCall * Outcome ExecResult)
         (rid : nat) (request : Request) (st : Server),
    ConcurrencyMiddleware.is_run request = true ->
    (MAX_REQUESTS <= current_requests st ->
       app API_KEY MAX_REQUESTS execute rid request st =
         (st, Return (Dict {| rsp_code := -503; rsp_message := "Too many requests";
                              rsp_data := None |}))) /\
    (current_requests st < MAX_REQUESTS ->
       semaphore st <> 0%nat ->
       AuthMiddleware.rejected API_KEY (x_api_key request) = true ->
       app API_KEY MAX_REQUESTS execute rid request st =
         ({| semaphore := semaphore st;
             current_requests := current_requests st;
             trace := trace st ++
                      [Incremented rid; Acquired rid; Released rid; Decremented rid] |},
          Return (JSONResponse 401 {| rsp_code := -401; rsp_message := "Unauthorized";
                                      rsp_data := None |}))).
Proof.
  intros API_KEY MAX_REQUESTS execute rid request st Hrun. split.
  - intros Hge. unfold app. apply dispatch_rejected; assumption.
  - intros Hlt Hsem Hkey. unfold app.
    assert (Hinner : AuthMiddleware.dispatch API_KEY request (route execute request) =
                     ([], Return (JSONResponse 401 unauthorized))).
    { unfold AuthMiddleware.dispatch.
      rewrite (is_run_under_sandbox _ Hrun), Hkey. reflexivity. }
    rewrite Hinner, dispatch_admitted; try assumption; [reflexivity | discriminate].
Qed.

Lemma overload_checked_before_api_key_witness :
  app "dify-sandbox" 1 Sample.execute 1 (Fixture.anonymous_request "/v1/sandbox/run")
    Fixture.busy_server =
    (Fixture.busy_server,
     Return (Dict {| rsp_code := -503; rsp_message := "Too many requests";
                     rsp_data := None |})) /\
  app "dify-sandbox" 2 Sample.execute 1 (Fixture.anonymous_request "/v1/sandbox/run")
    Fixture.busy_server =
    ({| semaphore := 3;
        current_requests := 1;
        trace := [Incremented 0; Acquired 0;
                  Incremented 1; Acquired 1; Released 1; Decremented 1] |},
     Return (JSONResponse 401 {| rsp_code := -401; rsp_message := "Unauthorized";
                                 rsp_data := None |})).
Proof.
  split.
  - apply (proj1 (overload_checked_before_api_key "dify-sandbox" 1 Sample.execute 1%nat
                    (Fixture.anonymous_request "/v1/sandbox/run") Fixture.busy_server
                    eq_refl)).
    simpl. lia.
  - apply (proj2 (overload_checked_before_api_key "dify-sandbox" 2 Sample.execute 1%nat
                    (Fixture.anonymous_request "/v1/sandbox/run") Fixture.busy_server
                    eq_refl));
      [simpl; lia | discriminate | reflexivity].
Defined.

(** X15: [/health] is answered with ["ok"] in every state of the server,
    with or without an API key, whatever the ceiling and the number of
    free permits; the counter, the semaphore and the pool are not
    touched. *)
Theorem health_always_ok :
  forall (API_KEY : string) (MAX_REQUESTS : Z)
         (execute : string -> string -> list PoolCall * Outcome ExecResult)
         (rid : nat) (request : Request) (st : Server),
    path request = "/health" ->
    app API_KEY MAX_REQUESTS execute rid request st = (st, Return (Plain "ok")).
Proof.
  intros API_KEY MAX_REQUESTS execute rid request st Hpath.
  unfold app, ConcurrencyMiddleware.dispatch, ConcurrencyMiddleware.is_run,
    AuthMiddleware.dispatch, route, call.
  rewrite Hpath. simpl. rewrite server_eta. reflexivity.
Qed.

Lemma health_always_ok_witness :
  app "dify-sandbox" 0 Sample.execute 5 (Fixture.anonymous_request "/health")
    {| semaphore := 0; current_requests := 7; trace := [] |} =
    ({| semaphore := 0; current_requests := 7; trace := [] |}, Return (Plain "ok")).
Proof.
  apply (health_always_ok "dify-sandbox" 0 Sample.execute 5%nat
           (Fixture.anonymous_request "/health")
           {| semaphore := 0; current_requests := 7; trace := [] |}).
  reflexivity.
Defined.

(** The dictionary [execute_code] builds from a result of [execute]. *)
Lemma execute_code_supported execute (request : CodeRequest) calls res :
  language_supported (language request) = true ->
  execute (code request) (language request) = (calls, res) ->
  execute_code execute request =
    (calls,
     match res with
     | Return result =>
         Return (Dict {| rsp_code := 0;
                         rsp_message := "success";
                         rsp_data := Some {| data_error := or_empty (error result);
                                             data_stdout := output result |} |})
     | Raise e => Raise e
     | Hang => Hang
     end).
Proof.
  intros Hlang Hexec. unfold execute_code. rewrite Hlang, Hexec. reflexivity.
Qed.

(** X16: an admitted run request with an accepted key and a supported
    language is answered with code 0 and message "success" whenever
    [execute] returns a dictionary, a failed or timed-out run included:
    the failure shows only in [data.error].  An exception that leaves
    [execute] leaves the handler and both middlewares as well.  Either
    way the pool calls of [execute] are the only ones, and the counter and
    the permit are given back. *)
Theorem run_request_outcome :
  forall (API_KEY : string) (MAX_REQUESTS : Z)
         (execute : string -> string -> list PoolCall * Outcome ExecResult)
         (rid : nat) (request : Request) (st : Server)
         (calls : list PoolCall) (res : Outcome ExecResult),
    path request = "/v1/sandbox/run" ->
    AuthMiddleware.rejected API_KEY (x_api_key request) = false ->
    language_supported (language (body request)) = true ->
    execute (code (body request)) (language (body request)) = (calls, res) ->
    res <> Hang ->
    current_requests st < MAX_REQUESTS ->
    semaphore st <> 0%nat ->
    app API_KEY MAX_REQUESTS execute rid request st =
      ({| semaphore := semaphore st;
          current_requests := current_requests st;
          trace := trace st ++ [Incremented rid; Acquired rid] ++
                   map (PoolCalled rid) calls ++ [Released rid; Decremented rid] |},
       match res with
       | Return result =>
           Return (Dict {| rsp_code := 0;
                           rsp_message := "success";
                           rsp_data := Some {| data_error := or_empty (error result);
                                               data_stdout := output result |} |})
       | Raise e => Raise e
       | Hang => Hang
       end).
Proof.
  intros API_KEY MAX_REQUESTS execute rid request st calls res
         Hpath Hkey Hlang Hexec Hend Hlt Hsem.
  assert (Hinner : AuthMiddleware.dispatch API_KEY request (route execute request) =
                   execute_code execute (body request)).
  { unfold AuthMiddleware.dispatch, route. rewrite Hpath. simpl. rewrite Hkey.
    reflexivity. }
  unfold app. rewrite Hinner, (execute_code_supported _ _ _ _ Hlang Hexec).
  rewrite dispatch_admitted; try assumption.
  - reflexivity.
  - unfold ConcurrencyMiddleware.is_run. rewrite Hpath. reflexivity.
  - simpl. destruct res; [discriminate | discriminate | contradiction].
Qed.

Lemma run_request_outcome_witness :
  app "dify-sandbox" 1000 Sample.execute 0
    (Sample.run_request "python3" "while True: pass") (ConcurrencyMiddleware.init 4) =
    ({| semaphore := 4;
        current_requests := 0;
        trace := [Incremented 0; Acquired 0;
                  PoolCalled 0 (Submitted PythonRunner "while True: pass");
                  Released 0; Decremented 0] |},
     Return (Dict {| rsp_code := 0;
                     rsp_message := "success";
                     rsp_data := Some {| data_error := "代码执行超时 (>10000秒)";
                                         data_stdout := "" |} |})).
Proof.
  apply (run_request_outcome "dify-sandbox" 1000 Sample.execute 0%nat
           (Sample.run_request "python3" "while True: pass")
           (ConcurrencyMiddleware.init 4)
           [Submitted PythonRunner "while True: pass"]
           (Return {| success := false; output := "";
                      error := Some "代码执行超时 (>10000秒)" |}));
    try reflexivity; discriminate.
Defined.

(** X17: from request to response for [python3]: when the key is accepted,
    the request admitted, the pool healthy and the source completes
    before the deadline leaving both capture buffers readable, the
    response carries code 0, the captured stdout
    as [data.stdout] and the captured stderr, exactly as written, as
    [data.error]; one job was submitted in between. *)
Theorem python_request_end_to_end :
  forall (API_KEY : string) (MAX_REQUESTS : Z) (exec : Interp) (host : Host)
         (pool : Pool) (fs : FS) (self : CodeExecutor)
         (rid : nat) (request : Request) (st : Server) (out err : string),
    path request = "/v1/sandbox/run" ->
    AuthMiddleware.rejected API_KEY (x_api_key request) = false ->
    language (body request) = "python3" ->
    run_end (exec (code (body request))) = Return tt ->
    run_stdout (exec (code (body request))) = Return out ->
    run_stderr (exec (code (body request))) = Return err ->
    submit_fault pool = None ->
    worker_fault pool = None ->
    Z.of_nat (elapsed_ms pool) < 1000 * timeout self ->
    current_requests st < MAX_REQUESTS ->
    semaphore st <> 0%nat ->
    app API_KEY MAX_REQUESTS (execute exec host pool fs self) rid request st =
      ({| semaphore := semaphore st;
          current_requests := current_requests st;
          trace := trace st ++
                   [Incremented rid; Acquired rid;
                    PoolCalled rid (Submitted PythonRunner (code (body request)));
                    Released rid; Decremented rid] |},
       Return (Dict {| rsp_code := 0;
                       rsp_message := "success";
                       rsp_data := Some {| data_error := err; data_stdout := out |} |})).
Proof.
  intros API_KEY MAX_REQUESTS exec host pool fs self rid request st out err
         Hpath Hkey Hlang Hend Hout Herr Hsub Hw Ht Hlt Hsem.
  assert (Hrun : execute exec host pool fs self (code (body request))
                   (language (body request)) =
                 ([Submitted PythonRunner (code (body request))],
                  Return {| success := true; output := out; error := or_None err |})).
  { rewrite execute_unfold, Hlang.
    rewrite (execute_body_dispatches _ _ _ _ _ _ _ PythonRunner)
      by (left; split; reflexivity).
    rewrite (submit_and_wait_accepted _ _ _ _ _ _ _ Hsub), Hw. simpl.
    rewrite (python_runner_completed _ _ _ _ Hend Hout Herr).
    apply Z.ltb_lt in Ht. rewrite Ht. reflexivity. }
  assert (Hsupp : language_supported (language (body request)) = true)
    by (rewrite Hlang; reflexivity).
  assert (Hinner : AuthMiddleware.dispatch API_KEY request
                     (route (execute exec host pool fs self) request) =
                   execute_code (execute exec host pool fs self) (body request)).
  { unfold AuthMiddleware.dispatch, route. rewrite Hpath. simpl. rewrite Hkey.
    reflexivity. }
  unfold app. rewrite Hinner, (execute_code_supported _ _ _ _ Hsupp Hrun).
  rewrite dispatch_admitted; try assumption.
  - simpl. rewrite or_empty_or_None. reflexivity.
  - unfold ConcurrencyMiddleware.is_run. rewrite Hpath. reflexivity.
  - discriminate.
Qed.

Lemma python_request_end_to_end_witness :
  app "dify-sandbox" 1000 Sample.execute 3
    (Sample.run_request "python3" "import sys; sys.stderr.write('warn')")
    (ConcurrencyMiddleware.init 4) =
    ({| semaphore := 4;
        current_requests := 0;
        trace := [Incremented 3; Acquired 3;
                  PoolCalled 3 (Submitted PythonRunner
                                  "import sys; sys.stderr.write('warn')");
                  Released 3; Decremented 3] |},
     Return (Dict {| rsp_code := 0;
                     rsp_message := "success";
                     rsp_data := Some {| data_error := "warn"; data_stdout := "" |} |})).
Proof.
  apply (python_request_end_to_end "dify-sandbox" 1000 Sample.exec Sample.host
           Sample.pool ∅ Sample.executor 3%nat
           (Sample.run_request "python3" "import sys; sys.stderr.write('warn')")
           (ConcurrencyMiddleware.init 4) "" "warn");
    try reflexivity; discriminate.
Defined.

(** X18: the response does not carry the success flag, and it turns a
    missing error into the empty string: a run that failed with empty
    error text is answered exactly like a run that succeeded with the
    same output. *)
Theorem response_hides_success_flag :
  forall (execute1 execute2 : string -> string -> list PoolCall * Outcome ExecResult)
         (request : CodeRequest) (calls : list PoolCall) (out : string),
    language_supported (language request) = true ->
    execute1 (code request) (language request) =
      (calls, Return {| success := true; output := out; error := None |}) ->
    execute2 (code request) (language request) =
      (calls, Return {| success := false; output := out; error := Some "" |}) ->
    execute_code execute1 request = execute_code execute2 request /\
    execute_code execute2 request =
      (calls, Return (Dict {| rsp_code := 0;
                              rsp_message := "success";
                              rsp_data := Some {| data_error := "";
                                                  data_stdout := out |} |})).
Proof.
  intros execute1 execute2 request calls out Hlang H1 H2.
  rewrite (execute_code_supported _ _ _ _ Hlang H1).
  rewrite (execute_code_supported _ _ _ _ Hlang H2).
  split; reflexivity.
Qed.

Lemma response_hides_success_flag_witness :
  execute_code Sample.execute (body (Sample.run_request "nodejs" "process.exit(3)")) =
    ([Submitted NodeRunner "process.exit(3)"],
     Return (Dict {| rsp_code := 0;
                     rsp_message := "success";
                     rsp_data := Some {| data_error := ""; data_stdout := "" |} |})).
Proof.
  apply (proj2 (response_hides_success_flag
                  (fun _ _ => ([Submitted NodeRunner "process.exit(3)"],
                               Return {| success := true; output := ""; error := None |}))
                  Sample.execute
                  (body (Sample.run_request "nodejs" "process.exit(3)"))
                  [Submitted NodeRunner "process.exit(3)"] ""
                  eq_refl eq_refl eq_refl)).
Defined.

(* ===================================================================== *)
(** ** More on the event loop                                             *)
(* ===================================================================== *)

Lemma count_if_positive f (phs : list Loop.Phase) :
  (0 < Loop.count_if f phs)%nat ->
  exists j ph, phs !! j = Some ph /\ f ph = true.
Proof.
  unfold Loop.count_if. induction phs as [|a phs IH]; simpl; [lia|].
  destruct (f a) eqn:Fa.
  - intros _. exists 0%nat, a. split; [reflexivity | exact Fa].
  - intros H. destruct (IH H) as (j & ph & Hj & Hf).
    exists (S j), ph. split; assumption.
Qed.

Lemma count_if_none f (phs : list Loop.Phase) :
  Forall (fun ph => f ph = false) phs -> Loop.count_if f phs = 0%nat.
Proof.
  unfold Loop.count_if. induction 1 as [|a phs Ha _ IH]; simpl; [reflexivity|].
  rewrite Ha. exact IH.
Qed.

Lemma running_is_Handling ph : Loop.running ph = true -> ph = Loop.Handling.
Proof. destruct ph; simpl; congruence. Qed.

(** X19: however the requests interleave, the requests being handled and
    the free permits always add up to [MAX_WORKERS]: never more than
    [MAX_WORKERS] requests are inside [call_next] at a time. *)
Theorem handled_requests_bounded_by_workers :
  forall (MAX_REQUESTS : Z) (requests : list Request) (MAX_WORKERS : nat)
         (st : Server) (phs : list Loop.Phase),
    Loop.reachable MAX_REQUESTS requests MAX_WORKERS (st, phs) ->
    (semaphore st + Loop.running_count phs = MAX_WORKERS)%nat /\
    (Loop.running_count phs <= MAX_WORKERS)%nat.
Proof.
  intros MAX_REQUESTS requests MAX_WORKERS st phs Hr.
  pose proof (reachable_permits_exact _ _ _ _ Hr) as Hp.
  unfold Loop.permits_exact in Hp. simpl in Hp. split; [exact Hp | lia].
Qed.

Lemma handled_requests_bounded_by_workers_witness :
  (Loop.running_count [Loop.Handling; Loop.Arrived] <= 1)%nat.
Proof.
  apply (handled_requests_bounded_by_workers 5
           [Sample.run_request "python3" "print('hi')";
            Sample.run_request "python3" "print('hi')"] 1%nat
           {| semaphore := 0; current_requests := 1;
              trace := [Incremented 0; Acquired 0] |}
           [Loop.Handling; Loop.Arrived]).
  eapply rtc_l.
  { apply (Loop.step_admit 5 _ 0%nat (Sample.run_request "python3" "print('hi')")
             (ConcurrencyMiddleware.init 1) [Loop.Arrived; Loop.Arrived]);
      reflexivity. }
  apply rtc_once.
  apply (Loop.step_acquire 5 _ 0%nat (increment 0 (ConcurrencyMiddleware.init 1))
           {| semaphore := 0; current_requests := 1;
              trace := [Incremented 0; Acquired 0] |}
           [Loop.Waiting; Loop.Arrived]);
    reflexivity.
Defined.

(** X20: whenever no request is in flight (each one is still to be looked
    at or has finished, in whatever way), the counter is back at 0 and
    every permit is back in the semaphore: no ticket and no permit is
    ever lost. *)
Theorem idle_server_has_all_permits :
  forall (MAX_REQUESTS : Z) (requests : list Request) (MAX_WORKERS : nat)
         (st : Server) (phs : list Loop.Phase),
    Loop.reachable MAX_REQUESTS requests MAX_WORKERS (st, phs) ->
    Forall (fun ph => Loop.in_flight ph = false) phs ->
    current_requests st = 0 /\ semaphore st = MAX_WORKERS.
Proof.
  intros MAX_REQUESTS requests MAX_WORKERS st phs Hr Hidle.
  pose proof (reachable_counter_exact _ _ _ _ Hr) as Hc.
  pose proof (reachable_permits_exact _ _ _ _ Hr) as Hp.
  unfold Loop.counter_exact, Loop.in_flight_count in Hc.
  unfold Loop.permits_exact, Loop.running_count in Hp. simpl in Hc, Hp.
  rewrite (count_if_none _ _ Hidle) in Hc.
  assert (Hrun : Forall (fun ph => Loop.running ph = false) phs).
  { eapply Forall_impl; [exact Hidle|]. intros ph. destruct ph; simpl; congruence. }
  rewrite (count_if_none _ _ Hrun) in Hp. split; [exact Hc | lia].
Qed.

Lemma idle_server_has_all_permits_witness :
  current_requests
    (decrement 0 (release 0 (fst (call 0 ([], Raise Sample.SystemExit_1)
       {| semaphore := 0; current_requests := 1;
          trace := [Incremented 0; Acquired 0] |})))) = 0 /\
  semaphore
    (decrement 0 (release 0 (fst (call 0 ([], Raise Sample.SystemExit_1)
       {| semaphore := 0; current_requests := 1;
          trace := [Incremented 0; Acquired 0] |})))) = 1%nat.
Proof.
  apply (idle_server_has_all_permits 5 [Sample.run_request "python3" "import sys; sys.exit(1)"]
           1%nat _ [Loop.Finished (Raise Sample.SystemExit_1)]).
  - eapply rtc_l.
    { apply (Loop.step_admit 5 _ 0%nat
               (Sample.run_request "python3" "import sys; sys.exit(1)")
               (ConcurrencyMiddleware.init 1) [Loop.Arrived]); reflexivity. }
    eapply rtc_l.
    { apply (Loop.step_acquire 5 _ 0%nat (increment 0 (ConcurrencyMiddleware.init 1))
               {| semaphore := 0; current_requests := 1;
                  trace := [Incremented 0; Acquired 0] |} [Loop.Waiting]);
        reflexivity. }
    apply rtc_once.
    apply (Loop.step_finish 5 _ 0%nat ([], Raise Sample.SystemExit_1)
             {| semaphore := 0; current_requests := 1;
                trace := [Incremented 0; Acquired 0] |} [Loop.Handling]);
      [reflexivity | discriminate].
  - repeat constructor.
Defined.

(** X21: with at least one worker, a request that waits for a permit can
    either take one now or waits for a request that is being handled and
    holds one: the semaphore is never empty with nobody inside. *)
Theorem waiting_request_waits_for_a_holder :
  forall (MAX_REQUESTS : Z) (requests : list Request) (MAX_WORKERS : nat)
         (st : Server) (phs : list Loop.Phase) (i : nat),
    Loop.reachable MAX_REQUESTS requests MAX_WORKERS (st, phs) ->
    MAX_WORKERS <> 0%nat ->
    phs !! i = Some Loop.Waiting ->
    (exists st', acquire i st = Some st') \/
    (exists j, phs !! j = Some Loop.Handling).
Proof.
  intros MAX_REQUESTS requests MAX_WORKERS st phs i Hr Hw Hi.
  pose proof (reachable_permits_exact _ _ _ _ Hr) as Hp.
  unfold Loop.permits_exact, Loop.running_count in Hp. simpl in Hp.
  unfold acquire. destruct (semaphore st) as [|n] eqn:Hs.
  - right. destruct (count_if_positive Loop.running phs) as (j & ph & Hj & Hf); [lia|].
    exists j. rewrite Hj. f_equal. apply running_is_Handling. exact Hf.
  - left. eexists. reflexivity.
Qed.

Lemma waiting_request_waits_for_a_holder_witness :
  (exists st', acquire 1 {| semaphore := 0; current_requests := 2;
                            trace := [Incremented 0; Acquired 0; Incremented 1] |}
               = Some st') \/
  (exists j, [Loop.Handling; Loop.Waiting] !! j = Some Loop.Handling).
Proof.
  apply (waiting_request_waits_for_a_holder 5
           [Sample.run_request "python3" "print('hi')";
            Sample.run_request "python3" "print('hi')"] 1%nat
           {| semaphore := 0; current_requests := 2;
              trace := [Incremented 0; Acquired 0; Incremented 1] |}
           [Loop.Handling; Loop.Waiting] 1%nat).
  - eapply rtc_l.
    { apply (Loop.step_admit 5 _ 0%nat (Sample.run_request "python3" "print('hi')")
               (ConcurrencyMiddleware.init 1) [Loop.Arrived; Loop.Arrived]);
        reflexivity. }
    eapply rtc_l.
    { apply (Loop.step_acquire 5 _ 0%nat (increment 0 (ConcurrencyMiddleware.init 1))
               {| semaphore := 0; current_requests := 1;
                  trace := [Incremented 0; Acquired 0] |}
               [Loop.Waiting; Loop.Arrived]); reflexivity. }
    apply rtc_once.
    apply (Loop.step_admit 5 _ 1%nat (Sample.run_request "python3" "print('hi')")
             {| semaphore := 0; current_requests := 1;
                trace := [Incremented 0; Acquired 0] |}
             [Loop.Handling; Loop.Arrived]); reflexivity.
  - discriminate.
  - reflexivity.
Defined.
